(** * Hello World! Tube -- the Networks routes (server_networks.js)

    A shallow embedding of [setupNetworkRoutes]: the relational tables of the
    Networks migration, the Prisma calls the handlers make on them, the Zod
    schemas that validate request bodies, and the Express handlers
    themselves, written in a small state-and-exception monad that also
    records every statement the store commits. *)

From Stdlib Require Import Ascii String List ZArith Bool Arith Lia.
Import ListNotations.
Open Scope string_scope.
Open Scope list_scope.

Set Implicit Arguments.
Set Warnings "-register-all".

(** ** JavaScript values

    What [express.json()] puts in [req.body] and what a handler hands to
    [res.json].  Strings stand for sequences of UTF-16 code units, so that
    [String.length] is the [length] Zod compares with; [VDate] is a [Date]
    (milliseconds since the epoch). *)

Inductive value : Type :=
| VNull
| VBool (b : bool)
| VNum (z : Z)
| VStr (s : string)
| VDate (ms : Z)
| VArr (items : list value)
| VObj (fields : list (string * value)).

(** [o[k]]: [None] is [undefined]. *)
Fixpoint lookup (k : string) (o : list (string * value)) : option value :=
  match o with
  | [] => None
  | (k', v) :: rest => if k' =? k then Some v else lookup k rest
  end.

(** [v.k] for a value that need not be an object. *)
Definition field (k : string) (v : value) : option value :=
  match v with
  | VObj o => lookup k o
  | _ => None
  end.

(** [delete o.k] *)
Definition delete_key (k : string) (o : list (string * value)) : list (string * value) :=
  filter (fun kv => negb (fst kv =? k)) o.

Definition nullable (s : option string) : value :=
  match s with
  | Some x => VStr x
  | None => VNull
  end.

(** ** Rows of the tables (prisma/migrations, Networks migration)

    Columns in the order of the [CREATE TABLE] statements; a nullable
    column is an [option].  [role] and [status] are [TEXT] columns and are
    kept as the strings the handlers write.  The [User] table is created
    by an earlier migration: its first columns are those server.js writes
    on signup and the profile view selects, the others those the
    [ALTER TABLE] of the Networks migration adds. *)

Record User := {
  u_id : string;
  u_email : string;
  u_passwordHash : string;
  u_displayName : option string;
  u_createdAt : Z;
  u_bio : option string;
  u_contactEmail : option string;
  u_isPublicProfile : bool;
  u_phone : option string;
  u_socialLinks : option value
}.

Record Network := {
  n_id : string;
  n_name : string;
  n_description : option string;
  n_ownerId : string;
  n_themes : list string;
  n_logoUrl : option string;
  n_createdAt : Z
}.

Record NetworkMembership := {
  m_id : string;
  m_networkId : string;
  m_userId : string;
  m_role : string;
  m_status : string;
  m_joinedAt : Z
}.

Record NetworkInvitation := {
  i_id : string;
  i_networkId : string;
  i_invitedUserId : string;
  i_inviterId : string;
  i_status : string;
  i_message : option string;
  i_createdAt : Z
}.

Record NetworkApplication := {
  a_id : string;
  a_networkId : string;
  a_applicantId : string;
  a_message : option string;
  a_status : string;
  a_createdAt : Z
}.

Record DB := {
  users : list User;
  networks : list Network;
  memberships : list NetworkMembership;
  invitations : list NetworkInvitation;
  applications : list NetworkApplication
}.

(** ** Errors a handler can see *)

Inductive PathSeg := Key (k : string) | Idx (i : nat).

Inductive ZodCode := invalid_type | too_small | too_big | invalid_string.

Record ZodIssue := { z_code : ZodCode; z_path : list PathSeg }.

(** Prisma's known request errors: [P2002] unique constraint failed on the
    given columns, [P2003] foreign key constraint failed on the given
    column, [P2025] a record the operation depends on was not found.
    [UnknownRequestError] is Prisma's error for a statement the store
    refuses for a reason Prisma has no code for. *)
Inductive PrismaCode :=
| P2002 (target : list string)
| P2003 (column : string)
| P2025.

Inductive Exn :=
| ZodError (issues : list ZodIssue)
| PrismaError (code : PrismaCode)
| UnknownRequestError.

Definition is_unique_violation (e : Exn) : bool :=
  match e with
  | PrismaError (P2002 _) => true
  | _ => false
  end.


(** ** The handler monad

    A store holds the current database and the states it went through: no
    handler opens a transaction, so each Prisma write commits on its own
    and [past] lists the states left behind, most recent first. *)

Record Store := { cur : DB; past : list DB }.

Definition start (db : DB) : Store := {| cur := db; past := [] |}.

Inductive Res (A : Type) : Type :=
| Ok (a : A)
| Throw (e : Exn).
Arguments Ok {A} a.
Arguments Throw {A} e.

Definition M (A : Type) : Type := Store -> Res A * Store.

Definition ret {A} (a : A) : M A := fun s => (Ok a, s).

Definition bind {A B} (m : M A) (f : A -> M B) : M B :=
  fun s =>
    match m s with
    | (Ok a, s') => f a s'
    | (Throw e, s') => (Throw e, s')
    end.

Definition throw {A} (e : Exn) : M A := fun s => (Throw e, s).

(** [try { body } catch (e) { handler }]: what the body committed before it
    threw stays committed. *)
Definition try_catch {A} (body : M A) (handler : Exn -> M A) : M A :=
  fun s =>
    match body s with
    | (Ok a, s') => (Ok a, s')
    | (Throw e, s') => handler e s'
    end.

Definition read {A} (q : DB -> A) : M A := fun s => (Ok (q (cur s)), s).

(** One write statement: it commits at once. *)
Definition modify (f : DB -> DB) : M unit :=
  fun s => (Ok tt, {| cur := f (cur s); past := cur s :: past s |}).

Declare Scope handler_scope.
Delimit Scope handler_scope with handler.
Notation "x <- m ;; k" := (bind m (fun x => k))
  (at level 61, m at next level, right associativity) : handler_scope.
Notation "m ;;; k" := (bind m (fun _ => k))
  (at level 61, right associativity) : handler_scope.
Open Scope handler_scope.

(** Every database state other requests could have seen during a run that
    ended in store [s]. *)
Definition visible (s : Store) : list DB := cur s :: past s.

(** ** Prisma calls

    The identifier of a new row and its timestamp come from outside the
    handler (Prisma's id generator, the server clock): a [Gen]. *)

Record Gen := { g_id : string; g_now : Z }.

Definition has_user (db : DB) (id : string) : bool :=
  existsb (fun u => u_id u =? id) (users db).

Definition has_network (db : DB) (id : string) : bool :=
  existsb (fun n => n_id n =? id) (networks db).

Definition same_member (networkId userId : string) (m : NetworkMembership) : bool :=
  (m_networkId m =? networkId) && (m_userId m =? userId).

Definition same_invitee (networkId userId : string) (i : NetworkInvitation) : bool :=
  (i_networkId i =? networkId) && (i_invitedUserId i =? userId).

Definition same_applicant (networkId userId : string) (a : NetworkApplication) : bool :=
  (a_networkId a =? networkId) && (a_applicantId a =? userId).

Definition with_users (db : DB) (l : list User) : DB :=
  {| users := l; networks := networks db; memberships := memberships db;
     invitations := invitations db; applications := applications db |}.

Definition with_networks (db : DB) (l : list Network) : DB :=
  {| users := users db; networks := l; memberships := memberships db;
     invitations := invitations db; applications := applications db |}.

Definition with_memberships (db : DB) (l : list NetworkMembership) : DB :=
  {| users := users db; networks := networks db; memberships := l;
     invitations := invitations db; applications := applications db |}.

Definition with_invitations (db : DB) (l : list NetworkInvitation) : DB :=
  {| users := users db; networks := networks db; memberships := memberships db;
     invitations := l; applications := applications db |}.

Definition with_applications (db : DB) (l : list NetworkApplication) : DB :=
  {| users := users db; networks := networks db; memberships := memberships db;
     invitations := invitations db; applications := l |}.

(** The constraints of the migration on an [INSERT], as PostgreSQL
    checks them: the primary key and the unique index when the row goes
    in, the foreign keys after it.  The first one violated gives the
    error, and a refused statement changes nothing. *)
Definition insert_check (pk_taken pair_taken : bool) (pair : list string)
    (fks : list (string * bool)) : option Exn :=
  if pk_taken then Some (PrismaError (P2002 ["id"]))
  else if pair_taken then Some (PrismaError (P2002 pair))
  else match find (fun fk => negb (snd fk)) fks with
       | Some (col, _) => Some (PrismaError (P2003 col))
       | None => None
       end.

Definition guarded_insert {A} (check : DB -> option Exn) (row : A) (ins : DB -> DB) : M A :=
  fun s =>
    match check (cur s) with
    | Some e => (Throw e, s)
    | None => (Ok row, {| cur := ins (cur s); past := cur s :: past s |})
    end.

(** [prisma.network] *)

Record NetworkData := {
  d_name : string;
  d_description : option string;
  d_themes : list string;
  d_logoUrl : option string
}.

Record NetworkPatch := {
  np_name : option string;
  np_description : option string;
  np_themes : option (list string);
  np_logoUrl : option string
}.

Definition network_findUnique (id : string) : M (option Network) :=
  read (fun db => find (fun n => n_id n =? id) (networks db)).

Definition new_network (g : Gen) (data : NetworkData) (ownerId : string) : Network :=
  {| n_id := g_id g; n_name := d_name data; n_description := d_description data;
     n_ownerId := ownerId; n_themes := d_themes data; n_logoUrl := d_logoUrl data;
     n_createdAt := g_now g |}.

(** PostgreSQL's [TEXT] and [JSONB] hold no U+0000.  A statement with
    such a value among its parameters is refused when it is bound, before
    any constraint is looked at, and Prisma raises the refusal as an
    unknown request error.  The check is written out where text of a
    request body reaches [prisma.network.create] and [prisma.user.update];
    the other calls are modelled on text without U+0000. *)
Fixpoint storable (s : string) : bool :=
  match s with
  | EmptyString => true
  | String c rest => negb (Ascii.eqb c Ascii.zero) && storable rest
  end.

Definition storable_opt (s : option string) : bool :=
  match s with
  | Some x => storable x
  | None => true
  end.

Fixpoint json_storable (v : value) : bool :=
  match v with
  | VStr s => storable s
  | VArr items => forallb json_storable items
  | VObj fields => forallb (fun kv => storable (fst kv) && json_storable (snd kv)) fields
  | _ => true
  end.

Definition network_data_storable (data : NetworkData) : bool :=
  storable (d_name data) && storable_opt (d_description data)
  && forallb storable (d_themes data) && storable_opt (d_logoUrl data).

Definition network_create (g : Gen) (data : NetworkData) (ownerId : string) : M Network :=
  if network_data_storable data
  then
    guarded_insert
      (fun db => insert_check (has_network db (g_id g)) false []
                   [("ownerId", has_user db ownerId)])
      (new_network g data ownerId)
      (fun db => with_networks db (networks db ++ [new_network g data ownerId]))
  else throw UnknownRequestError.

Definition or_old {A} (new : option A) (old : A) : A :=
  match new with
  | Some x => x
  | None => old
  end.

Definition or_keep {A} (new : option A) (old : option A) : option A :=
  match new with
  | Some x => Some x
  | None => old
  end.

Definition patch_network (p : NetworkPatch) (n : Network) : Network :=
  {| n_id := n_id n; n_name := or_old (np_name p) (n_name n);
     n_description := or_keep (np_description p) (n_description n);
     n_ownerId := n_ownerId n; n_themes := or_old (np_themes p) (n_themes n);
     n_logoUrl := or_keep (np_logoUrl p) (n_logoUrl n);
     n_createdAt := n_createdAt n |}.

Definition network_update (id : string) (p : NetworkPatch) : M Network :=
  found <- network_findUnique id ;;
  match found with
  | None => throw (PrismaError P2025)
  | Some n =>
      modify (fun db => with_networks db
                (map (fun x => if n_id x =? id then patch_network p x else x) (networks db))) ;;;
      ret (patch_network p n)
  end.

(** [DELETE FROM "Network"]: the three child tables reference the row
    [ON DELETE CASCADE], so their rows go in the same statement. *)
Definition cascade_delete (id : string) (db : DB) : DB :=
  {| users := users db;
     networks := filter (fun n => negb (n_id n =? id)) (networks db);
     memberships := filter (fun m => negb (m_networkId m =? id)) (memberships db);
     invitations := filter (fun i => negb (i_networkId i =? id)) (invitations db);
     applications := filter (fun a => negb (a_networkId a =? id)) (applications db) |}.

Definition network_delete (id : string) : M Network :=
  found <- network_findUnique id ;;
  match found with
  | None => throw (PrismaError P2025)
  | Some n =>
      modify (cascade_delete id) ;;;
      ret n
  end.

(** [prisma.networkMembership] *)

Definition networkMembership_findUnique (networkId userId : string)
  : M (option NetworkMembership) :=
  read (fun db => find (same_member networkId userId) (memberships db)).

Definition new_membership (g : Gen) (networkId userId role status : string)
  : NetworkMembership :=
  {| m_id := g_id g; m_networkId := networkId; m_userId := userId;
     m_role := role; m_status := status; m_joinedAt := g_now g |}.

Definition networkMembership_create (g : Gen) (networkId userId role status : string)
  : M NetworkMembership :=
  guarded_insert
    (fun db => insert_check
                 (existsb (fun m => m_id m =? g_id g) (memberships db))
                 (existsb (same_member networkId userId) (memberships db))
                 ["networkId"; "userId"]
                 [("networkId", has_network db networkId); ("userId", has_user db userId)])
    (new_membership g networkId userId role status)
    (fun db => with_memberships db
                 (memberships db ++ [new_membership g networkId userId role status])).

Definition networkMembership_delete (networkId userId : string) : M NetworkMembership :=
  found <- networkMembership_findUnique networkId userId ;;
  match found with
  | None => throw (PrismaError P2025)
  | Some m =>
      modify (fun db => with_memberships db
                (filter (fun x => negb (same_member networkId userId x)) (memberships db))) ;;;
      ret m
  end.

(** [prisma.networkInvitation] *)

Definition new_invitation (g : Gen) (networkId invitedUserId inviterId : string)
    (message : option string) : NetworkInvitation :=
  {| i_id := g_id g; i_networkId := networkId; i_invitedUserId := invitedUserId;
     i_inviterId := inviterId; i_status := "pending"; i_message := message;
     i_createdAt := g_now g |}.

Definition networkInvitation_create (g : Gen) (networkId invitedUserId inviterId : string)
    (message : option string) : M NetworkInvitation :=
  guarded_insert
    (fun db => insert_check
                 (existsb (fun i => i_id i =? g_id g) (invitations db))
                 (existsb (same_invitee networkId invitedUserId) (invitations db))
                 ["networkId"; "invitedUserId"]
                 [("networkId", has_network db networkId);
                  ("invitedUserId", has_user db invitedUserId);
                  ("inviterId", has_user db inviterId)])
    (new_invitation g networkId invitedUserId inviterId message)
    (fun db => with_invitations db
                 (invitations db ++ [new_invitation g networkId invitedUserId inviterId message])).

Definition networkInvitation_findUnique (id : string) : M (option NetworkInvitation) :=
  read (fun db => find (fun i => i_id i =? id) (invitations db)).

Definition set_invitation_status (status : string) (i : NetworkInvitation)
  : NetworkInvitation :=
  {| i_id := i_id i; i_networkId := i_networkId i; i_invitedUserId := i_invitedUserId i;
     i_inviterId := i_inviterId i; i_status := status; i_message := i_message i;
     i_createdAt := i_createdAt i |}.

Definition networkInvitation_update (id status : string) : M NetworkInvitation :=
  found <- networkInvitation_findUnique id ;;
  match found with
  | None => throw (PrismaError P2025)
  | Some i =>
      modify (fun db => with_invitations db
                (map (fun x => if i_id x =? id then set_invitation_status status x else x)
                     (invitations db))) ;;;
      ret (set_invitation_status status i)
  end.

(** [prisma.networkApplication] *)

Definition new_application (g : Gen) (networkId applicantId : string)
    (message : option string) : NetworkApplication :=
  {| a_id := g_id g; a_networkId := networkId; a_applicantId := applicantId;
     a_message := message; a_status := "pending"; a_createdAt := g_now g |}.

Definition networkApplication_create (g : Gen) (networkId applicantId : string)
    (message : option string) : M NetworkApplication :=
  guarded_insert
    (fun db => insert_check
                 (existsb (fun a => a_id a =? g_id g) (applications db))
                 (existsb (same_applicant networkId applicantId) (applications db))
                 ["networkId"; "applicantId"]
                 [("networkId", has_network db networkId);
                  ("applicantId", has_user db applicantId)])
    (new_application g networkId applicantId message)
    (fun db => with_applications db
                 (applications db ++ [new_application g networkId applicantId message])).

Definition networkApplication_findUnique (id : string) : M (option NetworkApplication) :=
  read (fun db => find (fun a => a_id a =? id) (applications db)).

Definition set_application_status (status : string) (a : NetworkApplication)
  : NetworkApplication :=
  {| a_id := a_id a; a_networkId := a_networkId a; a_applicantId := a_applicantId a;
     a_message := a_message a; a_status := status; a_createdAt := a_createdAt a |}.

Definition networkApplication_update (id status : string) : M NetworkApplication :=
  found <- networkApplication_findUnique id ;;
  match found with
  | None => throw (PrismaError P2025)
  | Some a =>
      modify (fun db => with_applications db
                (map (fun x => if a_id x =? id then set_application_status status x else x)
                     (applications db))) ;;;
      ret (set_application_status status a)
  end.

(** [prisma.user] *)

Record ProfileData := {
  pd_phone : option string;
  pd_contactEmail : option string;
  pd_bio : option string;
  pd_socialLinks : option value;
  pd_isPublicProfile : option bool
}.

Definition user_findUnique (id : string) : M (option User) :=
  read (fun db => find (fun u => u_id u =? id) (users db)).

Definition patch_user (p : ProfileData) (u : User) : User :=
  {| u_id := u_id u; u_email := u_email u; u_passwordHash := u_passwordHash u;
     u_displayName := u_displayName u; u_createdAt := u_createdAt u;
     u_bio := or_keep (pd_bio p) (u_bio u);
     u_contactEmail := or_keep (pd_contactEmail p) (u_contactEmail u);
     u_isPublicProfile := or_old (pd_isPublicProfile p) (u_isPublicProfile u);
     u_phone := or_keep (pd_phone p) (u_phone u);
     u_socialLinks := or_keep (pd_socialLinks p) (u_socialLinks u) |}.

(** [prisma.user.update] sends the new values as parameters of one
    [UPDATE]: text or JSON the store cannot hold makes it refuse the
    statement before a row is touched. *)
Definition profile_data_storable (p : ProfileData) : bool :=
  storable_opt (pd_phone p) && storable_opt (pd_contactEmail p) && storable_opt (pd_bio p)
  && match pd_socialLinks p with
     | Some links => json_storable links
     | None => true
     end.

Definition user_update (id : string) (p : ProfileData) : M User :=
  if profile_data_storable p
  then
    found <- user_findUnique id ;;
    match found with
    | None => throw (PrismaError P2025)
    | Some u =>
        modify (fun db => with_users db
                  (map (fun x => if u_id x =? id then patch_user p x else x) (users db))) ;;;
        ret (patch_user p u)
    end
  else throw UnknownRequestError.

(** ** Zod schemas

    [parse] either returns the typed data or throws a [ZodError] listing
    every issue found, in the order Zod walks the schema. *)

Definition ZRes (A : Type) : Type := (list ZodIssue + A)%type.

Definition issue (c : ZodCode) (p : list PathSeg) : ZodIssue :=
  {| z_code := c; z_path := p |}.

Definition issues_of {A} (r : ZRes A) : list ZodIssue :=
  match r with
  | inl l => l
  | inr _ => []
  end.

Inductive StrCheck :=
| Min (n : nat)
| Max (n : nat)
| Format (ok : string -> bool).

Definition str_issue (p : list PathSeg) (s : string) (c : StrCheck) : list ZodIssue :=
  match c with
  | Min n => if Nat.ltb (String.length s) n then [issue too_small p] else []
  | Max n => if Nat.ltb n (String.length s) then [issue too_big p] else []
  | Format ok => if ok s then [] else [issue invalid_string p]
  end.

(** [z.string()] followed by the chained checks *)
Definition z_string (checks : list StrCheck) (p : list PathSeg) (v : value) : ZRes string :=
  match v with
  | VStr s =>
      match flat_map (str_issue p s) checks with
      | [] => inr s
      | l => inl l
      end
  | _ => inl [issue invalid_type p]
  end.

(** [z.boolean()] *)
Definition z_boolean (p : list PathSeg) (v : value) : ZRes bool :=
  match v with
  | VBool b => inr b
  | _ => inl [issue invalid_type p]
  end.

(** [.optional()]: [undefined] passes, anything else (also [null]) goes to
    the inner schema. *)
Definition z_optional {A} (inner : list PathSeg -> value -> ZRes A)
    (p : list PathSeg) (v : option value) : ZRes (option A) :=
  match v with
  | None => inr None
  | Some x =>
      match inner p x with
      | inr a => inr (Some a)
      | inl l => inl l
      end
  end.

Definition z_required {A} (inner : list PathSeg -> value -> ZRes A)
    (p : list PathSeg) (v : option value) : ZRes A :=
  match v with
  | None => inl [issue invalid_type p]
  | Some x => inner p x
  end.

Fixpoint z_elements (p : list PathSeg) (i : nat) (l : list value)
  : list ZodIssue * list string :=
  match l with
  | [] => ([], [])
  | x :: rest =>
      let (bad, good) := z_elements p (S i) rest in
      match z_string [] (p ++ [Idx i]) x with
      | inr s => (bad, s :: good)
      | inl l' => (l' ++ bad, good)
      end
  end.

(** [z.array(z.string()).min(lo).max(hi)] *)
Definition z_array_string (lo hi : nat) (p : list PathSeg) (v : value)
  : ZRes (list string) :=
  match v with
  | VArr l =>
      let size := (if Nat.ltb (length l) lo then [issue too_small p] else [])
                  ++ (if Nat.ltb hi (length l) then [issue too_big p] else []) in
      let (bad, good) := z_elements p 0 l in
      match size ++ bad with
      | [] => inr good
      | l' => inl l'
      end
  | _ => inl [issue invalid_type p]
  end.

Definition parse {A} (schema : value -> ZRes A) (v : value) : M A :=
  match schema v with
  | inr a => ret a
  | inl l => throw (ZodError l)
  end.

(** ** Requests and responses *)

(** What the cookie and the session table give [authMiddleware]. *)
Inductive Session :=
| NoToken
| InvalidSession
| SessionOf (userId : string).

Record Request := {
  session : Session;
  params : string -> string;
  body : value
}.

Record Response := { status : nat; payload : value }.

(** [res.status(st).json(v)]; [res.json(v)] is [json 200 v]. *)
Definition json (st : nat) (v : value) : Response := {| status := st; payload := v |}.

Definition error (msg : string) : value := VObj [("error", VStr msg)].

Definition ok_true : value := VObj [("ok", VBool true)].

Definition network_json (n : Network) : value :=
  VObj [("id", VStr (n_id n)); ("name", VStr (n_name n));
        ("description", nullable (n_description n)); ("ownerId", VStr (n_ownerId n));
        ("themes", VArr (map VStr (n_themes n))); ("logoUrl", nullable (n_logoUrl n));
        ("createdAt", VDate (n_createdAt n))].

Definition invitation_json (i : NetworkInvitation) : value :=
  VObj [("id", VStr (i_id i)); ("networkId", VStr (i_networkId i));
        ("invitedUserId", VStr (i_invitedUserId i)); ("inviterId", VStr (i_inviterId i));
        ("status", VStr (i_status i)); ("message", nullable (i_message i));
        ("createdAt", VDate (i_createdAt i))].

Definition application_json (a : NetworkApplication) : value :=
  VObj [("id", VStr (a_id a)); ("networkId", VStr (a_networkId a));
        ("applicantId", VStr (a_applicantId a)); ("message", nullable (a_message a));
        ("status", VStr (a_status a)); ("createdAt", VDate (a_createdAt a))].

Definition json_or_null (v : option value) : value :=
  match v with
  | Some x => x
  | None => VNull
  end.

(** A whole [User] row, as a Prisma call without [select] returns it. *)
Definition user_json (u : User) : value :=
  VObj [("id", VStr (u_id u)); ("email", VStr (u_email u));
        ("passwordHash", VStr (u_passwordHash u));
        ("displayName", nullable (u_displayName u)); ("createdAt", VDate (u_createdAt u));
        ("bio", nullable (u_bio u)); ("contactEmail", nullable (u_contactEmail u));
        ("isPublicProfile", VBool (u_isPublicProfile u)); ("phone", nullable (u_phone u));
        ("socialLinks", json_or_null (u_socialLinks u))].

(** The [select] of the profile view. *)
Definition profile_fields (u : User) : list (string * value) :=
  [("id", VStr (u_id u)); ("displayName", nullable (u_displayName u));
   ("bio", nullable (u_bio u)); ("phone", nullable (u_phone u));
   ("contactEmail", nullable (u_contactEmail u));
   ("socialLinks", json_or_null (u_socialLinks u));
   ("isPublicProfile", VBool (u_isPublicProfile u)); ("createdAt", VDate (u_createdAt u))].

(** ** The routes of [setupNetworkRoutes] *)

Section Routes.

(** The texts of [e.message] and of a Zod issue's [message], and the
    string formats Zod tests with [.uuid()], [.url()] and [.email()],
    belong to the libraries. *)
Variable message : Exn -> string.
Variable issue_message : ZodIssue -> string.
Variables is_uuid is_url is_email : string -> bool.

Definition networkSchema (v : value) : ZRes NetworkData :=
  match v with
  | VObj o =>
      let name := z_required (z_string [Min 1; Max 100]) [Key "name"] (lookup "name" o) in
      let description :=
        z_optional (z_string [Max 500]) [Key "description"] (lookup "description" o) in
      let themes := z_required (z_array_string 1 10) [Key "themes"] (lookup "themes" o) in
      let logoUrl :=
        z_optional (z_string [Format is_url]) [Key "logoUrl"] (lookup "logoUrl" o) in
      match name, description, themes, logoUrl with
      | inr n, inr d, inr t, inr l =>
          inr {| d_name := n; d_description := d; d_themes := t; d_logoUrl := l |}
      | _, _, _, _ =>
          inl (issues_of name ++ issues_of description ++ issues_of themes
               ++ issues_of logoUrl)
      end
  | _ => inl [issue invalid_type []]
  end.

(** [networkSchema.partial()] *)
Definition networkSchema_partial (v : value) : ZRes NetworkPatch :=
  match v with
  | VObj o =>
      let name := z_optional (z_string [Min 1; Max 100]) [Key "name"] (lookup "name" o) in
      let description :=
        z_optional (z_string [Max 500]) [Key "description"] (lookup "description" o) in
      let themes := z_optional (z_array_string 1 10) [Key "themes"] (lookup "themes" o) in
      let logoUrl :=
        z_optional (z_string [Format is_url]) [Key "logoUrl"] (lookup "logoUrl" o) in
      match name, description, themes, logoUrl with
      | inr n, inr d, inr t, inr l =>
          inr {| np_name := n; np_description := d; np_themes := t; np_logoUrl := l |}
      | _, _, _, _ =>
          inl (issues_of name ++ issues_of description ++ issues_of themes
               ++ issues_of logoUrl)
      end
  | _ => inl [issue invalid_type []]
  end.

Record InvitationData := { iv_userId : string; iv_message : option string }.

Definition invitationSchema (v : value) : ZRes InvitationData :=
  match v with
  | VObj o =>
      let userId := z_required (z_string [Format is_uuid]) [Key "userId"] (lookup "userId" o) in
      let msg := z_optional (z_string [Max 500]) [Key "message"] (lookup "message" o) in
      match userId, msg with
      | inr u, inr m => inr {| iv_userId := u; iv_message := m |}
      | _, _ => inl (issues_of userId ++ issues_of msg)
      end
  | _ => inl [issue invalid_type []]
  end.

Definition applicationSchema (v : value) : ZRes (option string) :=
  match v with
  | VObj o => z_optional (z_string [Max 500]) [Key "message"] (lookup "message" o)
  | _ => inl [issue invalid_type []]
  end.

Definition present (k : string) (s : option string) : list (string * value) :=
  match s with
  | Some x => [(k, VStr x)]
  | None => []
  end.

Definition socialLinksSchema (p : list PathSeg) (v : value) : ZRes value :=
  match v with
  | VObj o =>
      let twitter := z_optional (z_string []) (p ++ [Key "twitter"]) (lookup "twitter" o) in
      let linkedin := z_optional (z_string []) (p ++ [Key "linkedin"]) (lookup "linkedin" o) in
      let instagram :=
        z_optional (z_string []) (p ++ [Key "instagram"]) (lookup "instagram" o) in
      let website :=
        z_optional (z_string [Format is_url]) (p ++ [Key "website"]) (lookup "website" o) in
      match twitter, linkedin, instagram, website with
      | inr t, inr l, inr i, inr w =>
          inr (VObj (present "twitter" t ++ present "linkedin" l
                     ++ present "instagram" i ++ present "website" w))
      | _, _, _, _ =>
          inl (issues_of twitter ++ issues_of linkedin ++ issues_of instagram
               ++ issues_of website)
      end
  | _ => inl [issue invalid_type p]
  end.

Definition profileSchema (v : value) : ZRes ProfileData :=
  match v with
  | VObj o =>
      let phone := z_optional (z_string []) [Key "phone"] (lookup "phone" o) in
      let contactEmail :=
        z_optional (z_string [Format is_email]) [Key "contactEmail"]
                   (lookup "contactEmail" o) in
      let bio := z_optional (z_string [Max 1000]) [Key "bio"] (lookup "bio" o) in
      let socialLinks :=
        z_optional socialLinksSchema [Key "socialLinks"] (lookup "socialLinks" o) in
      let isPublicProfile :=
        z_optional z_boolean [Key "isPublicProfile"] (lookup "isPublicProfile" o) in
      match phone, contactEmail, bio, socialLinks, isPublicProfile with
      | inr ph, inr ce, inr b, inr sl, inr pub =>
          inr {| pd_phone := ph; pd_contactEmail := ce; pd_bio := b;
                 pd_socialLinks := sl; pd_isPublicProfile := pub |}
      | _, _, _, _, _ =>
          inl (issues_of phone ++ issues_of contactEmail ++ issues_of bio
               ++ issues_of socialLinks ++ issues_of isPublicProfile)
      end
  | _ => inl [issue invalid_type []]
  end.

(** [e.errors?.[0]?.message || e.message] *)
Definition first_issue_or_message (e : Exn) : string :=
  match e with
  | ZodError (i :: _) => if issue_message i =? "" then message e else issue_message i
  | _ => message e
  end.

(** [[...].includes(action)] and [action === '...'] *)
Definition includes (l : list string) (v : option value) : bool :=
  match v with
  | Some (VStr s) => existsb (String.eqb s) l
  | _ => false
  end.

Definition is_string (c : string) (v : option value) : bool :=
  match v with
  | Some (VStr s) => s =? c
  | _ => false
  end.

(** server.js, [authMiddleware]: [req.user] is the user of the session. *)
Definition authMiddleware (next : string -> Request -> M Response) (req : Request)
  : M Response :=
  match session req with
  | NoToken => ret (json 401 (error "Not authenticated"))
  | InvalidSession => ret (json 401 (error "Session invalid"))
  | SessionOf userId => next userId req
  end.

(** [POST /api/networks] *)
Definition createNetwork (g1 g2 : Gen) (caller : string) (req : Request) : M Response :=
  try_catch
    (data <- parse networkSchema (body req) ;;
     network <- network_create g1 data caller ;;
     networkMembership_create g2 (n_id network) caller "owner" "active" ;;;
     ret (json 200 (VObj [("ok", VBool true); ("network", network_json network)])))
    (fun e => ret (json 400 (error (first_issue_or_message e)))).

(** [PATCH /api/networks/:id] *)
Definition updateNetwork (caller : string) (req : Request) : M Response :=
  try_catch
    (network <- network_findUnique (params req "id") ;;
     match network with
     | None => ret (json 404 (error "Network not found"))
     | Some network =>
         if negb (n_ownerId network =? caller)
         then ret (json 403 (error "Not authorized"))
         else
           data <- parse networkSchema_partial (body req) ;;
           updated <- network_update (params req "id") data ;;
           ret (json 200 (VObj [("ok", VBool true); ("network", network_json updated)]))
     end)
    (fun e => ret (json 400 (error (message e)))).

(** [DELETE /api/networks/:id] *)
Definition deleteNetwork (caller : string) (req : Request) : M Response :=
  network <- network_findUnique (params req "id") ;;
  match network with
  | None => ret (json 404 (error "Network not found"))
  | Some network =>
      if negb (n_ownerId network =? caller)
      then ret (json 403 (error "Not authorized"))
      else
        network_delete (params req "id") ;;;
        ret (json 200 ok_true)
  end.

(** [POST /api/networks/:id/invite] *)
Definition inviteUser (g : Gen) (caller : string) (req : Request) : M Response :=
  try_catch
    (network <- network_findUnique (params req "id") ;;
     match network with
     | None => ret (json 404 (error "Network not found"))
     | Some network =>
         if negb (n_ownerId network =? caller)
         then ret (json 403 (error "Only owner can invite"))
         else
           data <- parse invitationSchema (body req) ;;
           existing <- networkMembership_findUnique (params req "id") (iv_userId data) ;;
           match existing with
           | Some _ => ret (json 400 (error "User already member"))
           | None =>
               invitation <- networkInvitation_create g (params req "id") (iv_userId data)
                               caller (iv_message data) ;;
               ret (json 200 (VObj [("ok", VBool true);
                                    ("invitation", invitation_json invitation)]))
           end
     end)
    (fun e => ret (json 400 (error (message e)))).

(** [PATCH /api/invitations/:id] *)
Definition respondToInvitation (g : Gen) (caller : string) (req : Request) : M Response :=
  let action := field "action" (body req) in
  if negb (includes ["accept"; "reject"] action)
  then ret (json 400 (error "Invalid action"))
  else
    invitation <- networkInvitation_findUnique (params req "id") ;;
    match invitation with
    | None => ret (json 404 (error "Invitation not found"))
    | Some invitation =>
        if negb (i_invitedUserId invitation =? caller)
        then ret (json 403 (error "Not authorized"))
        else
          (if is_string "accept" action
           then
             networkMembership_create g (i_networkId invitation) caller "member" "active" ;;;
             networkInvitation_update (params req "id") "accepted"
           else
             networkInvitation_update (params req "id") "rejected") ;;;
          ret (json 200 ok_true)
    end.

(** [POST /api/networks/:id/apply] *)
Definition applyToNetwork (g : Gen) (caller : string) (req : Request) : M Response :=
  try_catch
    (msg <- parse applicationSchema (body req) ;;
     existing <- networkMembership_findUnique (params req "id") caller ;;
     match existing with
     | Some _ => ret (json 400 (error "Already member"))
     | None =>
         application <- networkApplication_create g (params req "id") caller msg ;;
         ret (json 200 (VObj [("ok", VBool true);
                              ("application", application_json application)]))
     end)
    (fun e => ret (json 400 (error (message e)))).

(** [PATCH /api/networks/:networkId/applications/:appId] *)
Definition respondToApplication (g : Gen) (caller : string) (req : Request) : M Response :=
  let action := field "action" (body req) in
  if negb (includes ["approve"; "reject"] action)
  then ret (json 400 (error "Invalid action"))
  else
    network <- network_findUnique (params req "networkId") ;;
    match network with
    | None => ret (json 404 (error "Network not found"))
    | Some network =>
        if negb (n_ownerId network =? caller)
        then ret (json 403 (error "Not authorized"))
        else
          application <- networkApplication_findUnique (params req "appId") ;;
          match application with
          | None => ret (json 404 (error "Application not found"))
          | Some application =>
              (if is_string "approve" action
               then
                 networkMembership_create g (params req "networkId")
                   (a_applicantId application) "member" "active" ;;;
                 networkApplication_update (params req "appId") "approved"
               else
                 networkApplication_update (params req "appId") "rejected") ;;;
              ret (json 200 ok_true)
          end
    end.

(** [DELETE /api/networks/:id/members/:userId] *)
Definition removeMember (caller : string) (req : Request) : M Response :=
  network <- network_findUnique (params req "id") ;;
  match network with
  | None => ret (json 404 (error "Network not found"))
  | Some network =>
      if negb (n_ownerId network =? caller)
      then ret (json 403 (error "Not authorized"))
      else if params req "userId" =? caller
      then ret (json 400 (error "Cannot remove yourself"))
      else
        networkMembership_delete (params req "id") (params req "userId") ;;;
        ret (json 200 ok_true)
  end.

(** [PATCH /api/users/profile] *)
Definition updateProfile (caller : string) (req : Request) : M Response :=
  try_catch
    (data <- parse profileSchema (body req) ;;
     user <- user_update caller data ;;
     ret (json 200 (VObj [("ok", VBool true); ("user", user_json user)])))
    (fun e => ret (json 400 (error (message e)))).

(** [GET /api/users/:id/profile], registered without [authMiddleware] *)
Definition viewProfile (req : Request) : M Response :=
  user <- user_findUnique (params req "id") ;;
  match user with
  | None => ret (json 404 (error "User not found"))
  | Some user =>
      let fields := profile_fields user in
      let fields :=
        if negb (u_isPublicProfile user)
        then delete_key "contactEmail" (delete_key "phone" fields)
        else fields in
      ret (json 200 (VObj fields))
  end.

(** The mutating routes and the profile view, as [app.METHOD] registers
    them. *)
Inductive Op :=
| CreateNetwork (g1 g2 : Gen)
| UpdateNetwork
| DeleteNetwork
| InviteUser (g : Gen)
| RespondToInvitation (g : Gen)
| ApplyToNetwork (g : Gen)
| RespondToApplication (g : Gen)
| RemoveMember
| UpdateProfile
| ViewProfile.

Definition route (op : Op) : Request -> M Response :=
  match op with
  | CreateNetwork g1 g2 => authMiddleware (createNetwork g1 g2)
  | UpdateNetwork => authMiddleware updateNetwork
  | DeleteNetwork => authMiddleware deleteNetwork
  | InviteUser g => authMiddleware (inviteUser g)
  | RespondToInvitation g => authMiddleware (respondToInvitation g)
  | ApplyToNetwork g => authMiddleware (applyToNetwork g)
  | RespondToApplication g => authMiddleware (respondToApplication g)
  | RemoveMember => authMiddleware removeMember
  | UpdateProfile => authMiddleware updateProfile
  | ViewProfile => viewProfile
  end.

End Routes.

(** ** Runs, reachable states and the properties stated of them *)

Definition run {A} (m : M A) (db : DB) : Res A * Store := m (start db).

(** What the handler has answered when its run is over: the response it
    passed to [res.json], or nothing when an error left it uncaught (the
    handler's promise is rejected before any call on [res]). *)
Definition answered {A} (r : Res A * Store) : option A :=
  match fst r with
  | Ok a => Some a
  | Throw _ => None
  end.

Section Runs.

Variable message : Exn -> string.
Variable issue_message : ZodIssue -> string.
Variables is_uuid is_url is_email : string -> bool.

(** The states a request leaves for others to see: the final one and
    those between its writes. *)
Definition after (op : Op) (req : Request) (db : DB) : list DB :=
  visible (snd (run (route message issue_message is_uuid is_url is_email op req) db)).

Inductive reachable (db0 : DB) : DB -> Prop :=
| reach_start : reachable db0 db0
| reach_step db op req db' :
    reachable db0 db -> In db' (after op req db) -> reachable db0 db'.

End Runs.

(** A database together with the identifiers its generator has handed
    out so far: the generator never repeats one. *)
Record World := { w_db : DB; w_issued : list string }.

Definition op_ids (op : Op) : list string :=
  match op with
  | CreateNetwork g1 g2 => [g_id g1; g_id g2]
  | InviteUser g | RespondToInvitation g | ApplyToNetwork g | RespondToApplication g =>
      [g_id g]
  | UpdateNetwork | DeleteNetwork | RemoveMember | UpdateProfile | ViewProfile => []
  end.

Section WorldRuns.

Variable message : Exn -> string.
Variable issue_message : ZodIssue -> string.
Variables is_uuid is_url is_email : string -> bool.

Inductive wreachable (w0 : World) : World -> Prop :=
| wreach_start : wreachable w0 w0
| wreach_step w op req db' :
    wreachable w0 w ->
    (forall id, In id (op_ids op) -> ~ In id (w_issued w)) ->
    In db' (after message issue_message is_uuid is_url is_email op req (w_db w)) ->
    wreachable w0 {| w_db := db'; w_issued := op_ids op ++ w_issued w |}.

End WorldRuns.

(** A predicate on databases that every state a computation leaves
    visible satisfies, provided the states before it did. *)
Definition preserves (I : DB -> Prop) {A} (m : M A) : Prop :=
  forall s, Forall I (visible s) -> Forall I (visible (snd (m s))).

(** The membership table holds at most one row per (network, user). *)
Definition unique_memberships (db : DB) : Prop :=
  forall networkId userId,
    length (filter (same_member networkId userId) (memberships db)) <= 1.

(** The terminal states of an invitation. *)
Definition terminal (st : string) : Prop := st = "accepted" \/ st = "rejected".

(** The pair of [i0] has at most one invitation, every invitation of the
    pair is [i0] itself in a terminal state, and the pair has such a row as
    long as its network exists. *)
Definition settled (i0 : NetworkInvitation) (db : DB) : Prop :=
  length (filter (same_invitee (i_networkId i0) (i_invitedUserId i0)) (invitations db)) <= 1
  /\ (forall i, In i (invitations db) ->
                same_invitee (i_networkId i0) (i_invitedUserId i0) i = true ->
                exists st, terminal st /\ i = set_invitation_status st i0)
  /\ (has_network db (i_networkId i0) = true ->
      existsb (same_invitee (i_networkId i0) (i_invitedUserId i0)) (invitations db) = true).

(** What each Prisma write must respect for a predicate to hold along
    every run; [fresh] restricts the identifier of a new network and the
    status written to an invitation is terminal. *)
Record stable (fresh : string -> Prop) (I : DB -> Prop) : Prop := {
  stable_network_create :
    forall g d o, fresh (g_id g) -> preserves I (network_create g d o);
  stable_network_update : forall id p, preserves I (network_update id p);
  stable_network_delete : forall id, preserves I (network_delete id);
  stable_membership_create :
    forall g n u r st, preserves I (networkMembership_create g n u r st);
  stable_membership_delete : forall n u, preserves I (networkMembership_delete n u);
  stable_invitation_create :
    forall g n u v msg, preserves I (networkInvitation_create g n u v msg);
  stable_invitation_update :
    forall id st, terminal st -> preserves I (networkInvitation_update id st);
  stable_application_create :
    forall g n u msg, preserves I (networkApplication_create g n u msg);
  stable_application_update : forall id st, preserves I (networkApplication_update id st);
  stable_user_update : forall id p, preserves I (user_update id p)
}.

(** No state of the run shows network [n] without a membership in it. *)
Definition never_memberless (n : string) (s : Store) : Prop :=
  Forall (fun db => has_network db n = true ->
                    existsb (fun m => m_networkId m =? n) (memberships db) = true)
         (visible s).

(** No row of a child table references network [n] once [n] is gone. *)
Definition no_orphans (n : string) (db : DB) : Prop :=
  has_network db n = false ->
  (forall m, In m (memberships db) -> m_networkId m <> n)
  /\ (forall i, In i (invitations db) -> i_networkId i <> n)
  /\ (forall a, In a (applications db) -> a_networkId a <> n).

(** The foreign key of the membership table to the network table. *)
Definition membership_fk (db : DB) : Prop :=
  forall m, In m (memberships db) -> has_network db (m_networkId m) = true.

(** The same request sent under another session. *)
Definition as_session (who : Session) (req : Request) : Request :=
  {| session := who; params := params req; body := body req |}.

(** ** Sample data *)

Module Sample.

Definition msg (e : Exn) : string :=
  match e with
  | ZodError _ => "Validation failed"
  | PrismaError (P2002 _) => "Unique constraint failed"
  | PrismaError (P2003 _) => "Foreign key constraint failed"
  | PrismaError P2025 => "Record not found"
  | UnknownRequestError => "Error occurred during query execution"
  end.

Definition issue_msg (i : ZodIssue) : string := "Invalid input".

Definition well_formed (s : string) : bool := negb (s =? "").

Definition person (id : string) (public : bool) : User :=
  {| u_id := id; u_email := (id ++ "@example.org")%string; u_passwordHash := "$2a$10$hash";
     u_displayName := Some id; u_createdAt := 0%Z; u_bio := None;
     u_contactEmail := Some (id ++ "@work.example.org")%string; u_isPublicProfile := public;
     u_phone := Some "555-0100"; u_socialLinks := None |}.

Definition at_ (id : string) : Gen := {| g_id := id; g_now := 1%Z |}.

Definition request (who : string) (ps : list (string * string)) (b : value) : Request :=
  {| session := SessionOf who;
     params := fun k => match find (fun kv => fst kv =? k) ps with
                        | Some kv => snd kv
                        | None => ""
                        end;
     body := b |}.

Definition action (a : string) : value := VObj [("action", VStr a)].

Definition tech : value := VObj [("name", VStr "Tech Reviewers"); ("themes", VArr [VStr "tech"])].

(** Users A (private profile), B, C and D; no network yet. *)
Definition db0 : DB :=
  {| users := [person "A" false; person "B" true; person "C" false; person "D" true];
     networks := []; memberships := []; invitations := []; applications := [] |}.

Definition exec (m : M Response) (db : DB) : DB := cur (snd (run m db)).

(** A creates network n1. *)
Definition db1 : DB :=
  exec (createNetwork msg issue_msg well_formed (at_ "n1") (at_ "m1") "A"
          (request "A" [] tech)) db0.

(** A invites C to n1. *)
Definition db2 : DB :=
  exec (inviteUser msg well_formed (at_ "i1") "A"
          (request "A" [("id", "n1")] (VObj [("userId", VStr "C")]))) db1.

(** C rejects. *)
Definition db3 : DB :=
  exec (respondToInvitation (at_ "m2") "C" (request "C" [("id", "i1")] (action "reject")))
       db2.

(** C accepts the invitation rejected before. *)
Definition db4 : DB :=
  exec (respondToInvitation (at_ "m3") "C" (request "C" [("id", "i1")] (action "accept")))
       db3.

(** B creates network n2 and A, owner of n1, applies to it. *)
Definition db5 : DB :=
  exec (applyToNetwork msg (at_ "a1") "A"
          (request "A" [("id", "n2")] (VObj [("message", VStr "hi")])))
       (exec (createNetwork msg issue_msg well_formed (at_ "n2") (at_ "m4") "B"
                (request "B" [] tech)) db4).

(** D applies to n2 as well. *)
Definition db6 : DB :=
  exec (applyToNetwork msg (at_ "a2") "D" (request "D" [("id", "n2")] (VObj []))) db5.

End Sample.

(** ** Further properties of the tables *)

Unset Implicit Arguments.

(** The unique indexes of the invitation and application tables. *)
Definition unique_invitations (db : DB) : Prop :=
  forall networkId userId,
    length (filter (same_invitee networkId userId) (invitations db)) <= 1.

Definition unique_applications (db : DB) : Prop :=
  forall networkId userId,
    length (filter (same_applicant networkId userId) (applications db)) <= 1.

(** The primary keys. *)
Definition primary_keys (db : DB) : Prop :=
  NoDup (map u_id (users db))
  /\ NoDup (map n_id (networks db))
  /\ NoDup (map m_id (memberships db))
  /\ NoDup (map i_id (invitations db))
  /\ NoDup (map a_id (applications db)).

(** The foreign keys of the migration. *)
Definition foreign_keys (db : DB) : Prop :=
  (forall n, In n (networks db) -> has_user db (n_ownerId n) = true)
  /\ (forall m, In m (memberships db) ->
                has_network db (m_networkId m) = true /\ has_user db (m_userId m) = true)
  /\ (forall i, In i (invitations db) ->
                has_network db (i_networkId i) = true
                /\ has_user db (i_invitedUserId i) = true
                /\ has_user db (i_inviterId i) = true)
  /\ (forall a, In a (applications db) ->
                has_network db (a_networkId a) = true
                /\ has_user db (a_applicantId a) = true).

(** What signup and login know of a user. *)
Definition account (u : User) : string * string * string * option string * Z :=
  (u_id u, u_email u, u_passwordHash u, u_displayName u, u_createdAt u).

(** What the schemas let through. *)
Definition message_in_bounds (msg : option string) : Prop :=
  forall x, msg = Some x -> String.length x <= 500.

Definition network_data_in_bounds (is_url : string -> bool) (d : NetworkData) : Prop :=
  1 <= String.length (d_name d) <= 100
  /\ (forall x, d_description d = Some x -> String.length x <= 500)
  /\ 1 <= length (d_themes d) <= 10
  /\ (forall x, d_logoUrl d = Some x -> is_url x = true).

Definition network_patch_in_bounds (is_url : string -> bool) (p : NetworkPatch) : Prop :=
  (forall x, np_name p = Some x -> 1 <= String.length x <= 100)
  /\ (forall x, np_description p = Some x -> String.length x <= 500)
  /\ (forall x, np_themes p = Some x -> 1 <= length x <= 10)
  /\ (forall x, np_logoUrl p = Some x -> is_url x = true).

Definition network_in_bounds (is_url : string -> bool) (n : Network) : Prop :=
  1 <= String.length (n_name n) <= 100
  /\ (forall x, n_description n = Some x -> String.length x <= 500)
  /\ 1 <= length (n_themes n) <= 10
  /\ (forall x, n_logoUrl n = Some x -> is_url x = true).

(** The values the handlers write to [role] and [status]. *)
Definition membership_in_domain (m : NetworkMembership) : Prop :=
  m_status m = "active" /\ (m_role m = "owner" \/ m_role m = "member").

Definition invitation_in_domain (i : NetworkInvitation) : Prop :=
  (i_status i = "pending" \/ i_status i = "accepted" \/ i_status i = "rejected")
  /\ message_in_bounds (i_message i).

Definition application_in_domain (a : NetworkApplication) : Prop :=
  (a_status a = "pending" \/ a_status a = "approved" \/ a_status a = "rejected")
  /\ message_in_bounds (a_message a).

Definition rows_in_domain (is_url : string -> bool) (db : DB) : Prop :=
  (forall n, In n (networks db) -> network_in_bounds is_url n)
  /\ (forall m, In m (memberships db) -> membership_in_domain m)
  /\ (forall i, In i (invitations db) -> invitation_in_domain i)
  /\ (forall a, In a (applications db) -> application_in_domain a).

(** What each Prisma write must respect for a predicate to hold along
    every run, given what the handlers pass to it: data a schema has
    accepted and the constants they write to [role] and [status]. *)
Record checked (is_url : string -> bool) (I : DB -> Prop) : Prop := {
  checked_network_create :
    forall g d o, network_data_in_bounds is_url d -> preserves I (network_create g d o);
  checked_network_update :
    forall id p, network_patch_in_bounds is_url p -> preserves I (network_update id p);
  checked_network_delete : forall id, preserves I (network_delete id);
  checked_membership_create :
    forall g n u r, r = "owner" \/ r = "member" ->
                    preserves I (networkMembership_create g n u r "active");
  checked_membership_delete : forall n u, preserves I (networkMembership_delete n u);
  checked_invitation_create :
    forall g n u v msg, message_in_bounds msg ->
                        preserves I (networkInvitation_create g n u v msg);
  checked_invitation_update :
    forall id st, terminal st -> preserves I (networkInvitation_update id st);
  checked_application_create :
    forall g n u msg, message_in_bounds msg ->
                      preserves I (networkApplication_create g n u msg);
  checked_application_update :
    forall id st, st = "approved" \/ st = "rejected" ->
                  preserves I (networkApplication_update id st);
  checked_user_update : forall id p, preserves I (user_update id p)
}.

(** The owner role is held by the owner: a membership with role [owner]
    names a network whose [ownerId] is the member. *)
Definition owner_role_held_by_owner (db : DB) : Prop :=
  forall m, In m (memberships db) -> m_role m = "owner" ->
    exists n, In n (networks db) /\ n_id n = m_networkId m /\ n_ownerId n = m_userId m.

Set Implicit Arguments.

(** ** Single requests *)

Unset Implicit Arguments.

Ltac unfold_handler :=
  unfold network_findUnique, networkMembership_findUnique, networkInvitation_findUnique,
    networkApplication_findUnique, user_findUnique;
  unfold parse, guarded_insert;
  unfold run, try_catch, bind, ret, throw, read, modify, start;
  cbn [cur past fst snd].

Ltac reduce_run := cbn [cur past fst snd negb orb andb includes is_string existsb].

(** The sample at work: a name outside the schema's bounds, a second
    invitation of the same user, and the profile of a private user. *)
Example sample_empty_name_refused :
  run (createNetwork Sample.msg Sample.issue_msg Sample.well_formed
         (Sample.at_ "n9") (Sample.at_ "m9") "A"
         (Sample.request "A" [] (VObj [("name", VStr ""); ("themes", VArr [VStr "tech"])])))
      Sample.db0
  = (Ok (json 400 (error "Invalid input")), start Sample.db0).
Proof. reflexivity. Qed.

Example sample_second_invitation_refused :
  run (inviteUser Sample.msg Sample.well_formed (Sample.at_ "i2") "A"
         (Sample.request "A" [("id", "n1")] (VObj [("userId", VStr "C")])))
      Sample.db2
  = (Ok (json 400 (error "Unique constraint failed")), start Sample.db2).
Proof. reflexivity. Qed.

Example sample_private_profile :
  run (viewProfile (Sample.request "B" [("id", "C")] (VObj []))) Sample.db0
  = (Ok (json 200
           (VObj [("id", VStr "C"); ("displayName", VStr "C"); ("bio", VNull);
                  ("socialLinks", VNull); ("isPublicProfile", VBool false);
                  ("createdAt", VDate 0)])),
     start Sample.db0).
Proof. reflexivity. Qed.

Example sample_memberships :
  map (fun m => (m_networkId m, m_userId m, m_role m)) (memberships Sample.db6)
  = [("n1", "A", "owner"); ("n1", "C", "member"); ("n2", "B", "owner")].
Proof. reflexivity. Qed.

Lemma eqb_refl_false (a : string) : negb (a =? a) = false.
Proof. now rewrite String.eqb_refl. Qed.

Lemma insert_check_pair_taken (pk : bool) (pair : list string) (fks : list (string * bool)) :
  exists e, is_unique_violation e = true /\ insert_check pk true pair fks = Some e.
Proof.
  unfold insert_check. destruct pk; eexists; split; try reflexivity; reflexivity.
Qed.

(** C1.  When the invited user already holds a membership in the
    invitation's network, accepting the invitation fails with the unique
    constraint violation raised by the membership insert, which is attempted
    first: nothing is written and the invitation keeps the status it had.
    The handler has no [try]/[catch]: the error leaves it as it is raised
    and the handler answers nothing, where [inviteUser] and
    [applyToNetwork] catch the same error and answer 400. *)
Theorem accept_by_member_conflicts
    (g : Gen) (caller : string) (req : Request) (db : DB) (inv : NetworkInvitation) :
  field "action" (body req) = Some (VStr "accept") ->
  find (fun i => i_id i =? params req "id") (invitations db) = Some inv ->
  i_invitedUserId inv = caller ->
  existsb (same_member (i_networkId inv) caller) (memberships db) = true ->
  exists e,
    is_unique_violation e = true
    /\ run (respondToInvitation g caller req) db = (Throw e, start db)
    /\ answered (run (respondToInvitation g caller req) db) = None
    /\ find (fun i => i_id i =? params req "id")
            (invitations (cur (snd (run (respondToInvitation g caller req) db))))
       = Some inv.
Proof.
  intros Haction Hfind Hcaller Hmember.
  destruct (insert_check_pair_taken
              (existsb (fun m => m_id m =? g_id g) (memberships db))
              ["networkId"; "userId"]
              [("networkId", has_network db (i_networkId inv));
               ("userId", has_user db caller)]) as [e [He Hcheck]].
  exists e. split; [exact He|].
  assert (Hrun : run (respondToInvitation g caller req) db = (Throw e, start db)).
  { unfold respondToInvitation, networkMembership_create. rewrite Haction.
    unfold_handler. reduce_run. rewrite String.eqb_refl. reduce_run.
    rewrite Hfind, Hcaller, eqb_refl_false. reduce_run.
    rewrite Hmember, Hcheck. reflexivity. }
  rewrite Hrun. split; [reflexivity|]. split; [reflexivity|exact Hfind].
Qed.

Lemma accept_by_member_conflicts_witness :
  exists e,
    is_unique_violation e = true
    /\ run (respondToInvitation (Sample.at_ "m5") "C"
              (Sample.request "C" [("id", "i1")] (Sample.action "accept"))) Sample.db4
       = (Throw e, start Sample.db4)
    /\ answered (run (respondToInvitation (Sample.at_ "m5") "C"
                        (Sample.request "C" [("id", "i1")] (Sample.action "accept")))
                     Sample.db4)
       = None
    /\ find (fun i => i_id i =? "i1")
            (invitations
               (cur (snd (run (respondToInvitation (Sample.at_ "m5") "C"
                                 (Sample.request "C" [("id", "i1")] (Sample.action "accept")))
                              Sample.db4))))
       = Some (set_invitation_status "accepted"
                 (new_invitation (Sample.at_ "i1") "n1" "C" "A" None)).
Proof.
  apply (accept_by_member_conflicts (Sample.at_ "m5") "C"
           (Sample.request "C" [("id", "i1")] (Sample.action "accept")) Sample.db4
           (set_invitation_status "accepted"
              (new_invitation (Sample.at_ "i1") "n1" "C" "A" None)));
    reflexivity.
Defined.

Lemma find_some_exists {A} (f : A -> bool) (l : list A) (x : A) :
  find f l = Some x -> existsb f l = true.
Proof.
  intros H. apply find_some in H. apply existsb_exists. exists x. exact H.
Qed.

Lemma filter_negb_none {A} (f : A -> bool) (l : list A) (x : A) :
  In x (filter (fun y => negb (f y)) l) -> f x = false.
Proof.
  intros H. apply filter_In in H. destruct H as [_ H].
  now apply negb_true_iff in H.
Qed.

Lemma has_network_cascade (id : string) (db : DB) :
  has_network (cascade_delete id db) id = false.
Proof.
  unfold has_network, cascade_delete. cbn [networks].
  destruct (existsb (fun n => n_id n =? id)
              (filter (fun n => negb (n_id n =? id)) (networks db))) eqn:E; [|reflexivity].
  apply existsb_exists in E. destruct E as [n [Hin Hid]].
  apply (filter_negb_none (fun n => n_id n =? id)) in Hin. congruence.
Qed.

(** C7.  Deleting a network as its owner succeeds with one write
    statement: the only states left visible are the one before and the one
    after, the one after holds neither the network nor any membership,
    invitation or application that references it, and so no visible state
    has the network gone and a row of its own left. *)
Theorem deleteNetwork_cascades
    (caller : string) (req : Request) (db : DB) (net : Network) :
  find (fun n => n_id n =? params req "id") (networks db) = Some net ->
  n_ownerId net = caller ->
  exists db',
    run (deleteNetwork caller req) db
    = (Ok (json 200 ok_true), {| cur := db'; past := [db] |})
    /\ has_network db' (params req "id") = false
    /\ (forall m, In m (memberships db') -> m_networkId m <> params req "id")
    /\ (forall i, In i (invitations db') -> i_networkId i <> params req "id")
    /\ (forall a, In a (applications db') -> a_networkId a <> params req "id")
    /\ Forall (no_orphans (params req "id"))
              (visible (snd (run (deleteNetwork caller req) db))).
Proof.
  intros Hfind Howner. exists (cascade_delete (params req "id") db).
  assert (Hrun : run (deleteNetwork caller req) db
                 = (Ok (json 200 ok_true),
                    {| cur := cascade_delete (params req "id") db; past := [db] |})).
  { unfold deleteNetwork, network_delete. unfold_handler.
    rewrite Hfind, Howner, eqb_refl_false. reduce_run. rewrite Hfind. reflexivity. }
  assert (Hgone : (forall m, In m (memberships (cascade_delete (params req "id") db)) ->
                             m_networkId m <> params req "id")
                  /\ (forall i, In i (invitations (cascade_delete (params req "id") db)) ->
                                i_networkId i <> params req "id")
                  /\ (forall a, In a (applications (cascade_delete (params req "id") db)) ->
                                a_networkId a <> params req "id")).
  { unfold cascade_delete; cbn [memberships invitations applications].
    repeat split; intros x Hin Heq;
      [ apply (filter_negb_none (fun m => m_networkId m =? params req "id")) in Hin
      | apply (filter_negb_none (fun i => i_networkId i =? params req "id")) in Hin
      | apply (filter_negb_none (fun a => a_networkId a =? params req "id")) in Hin ];
      rewrite Heq, String.eqb_refl in Hin; discriminate. }
  split; [exact Hrun|]. split; [apply has_network_cascade|].
  destruct Hgone as [Hm [Hi Ha]].
  split; [exact Hm|]. split; [exact Hi|]. split; [exact Ha|].
  rewrite Hrun. unfold visible. cbn [snd cur past].
  constructor; [intros _; repeat split; assumption|].
  constructor; [|constructor].
  intros Habsent. apply find_some_exists in Hfind.
  unfold has_network in Habsent. congruence.
Qed.

Lemma deleteNetwork_cascades_witness :
  exists db',
    run (deleteNetwork "A" (Sample.request "A" [("id", "n1")] (VObj []))) Sample.db4
    = (Ok (json 200 ok_true), {| cur := db'; past := [Sample.db4] |})
    /\ has_network db' "n1" = false
    /\ (forall m, In m (memberships db') -> m_networkId m <> "n1")
    /\ (forall i, In i (invitations db') -> i_networkId i <> "n1")
    /\ (forall a, In a (applications db') -> a_networkId a <> "n1")
    /\ Forall (no_orphans "n1")
              (visible (snd (run (deleteNetwork "A"
                                    (Sample.request "A" [("id", "n1")] (VObj [])))
                                 Sample.db4))).
Proof.
  apply (deleteNetwork_cascades "A" (Sample.request "A" [("id", "n1")] (VObj [])) Sample.db4
           (new_network (Sample.at_ "n1")
              {| d_name := "Tech Reviewers"; d_description := None;
                 d_themes := ["tech"]; d_logoUrl := None |} "A"));
    reflexivity.
Defined.




Lemma same_member_true (n u : string) (m : NetworkMembership) :
  same_member n u m = true <-> m_networkId m = n /\ m_userId m = u.
Proof.
  unfold same_member. rewrite andb_true_iff, !String.eqb_eq. tauto.
Qed.





Lemma lookup_delete_same (k : string) (o : list (string * value)) :
  lookup k (delete_key k o) = None.
Proof.
  induction o as [|[k' v] o IH]; cbn; [reflexivity|].
  destruct (k' =? k) eqn:E; cbn; [exact IH|]. rewrite E. exact IH.
Qed.

Lemma lookup_delete_other (k k' : string) (o : list (string * value)) :
  k' <> k -> lookup k (delete_key k' o) = lookup k o.
Proof.
  intros Hneq. induction o as [|[k0 v] o IH]; cbn; [reflexivity|].
  destruct (k0 =? k') eqn:E; cbn.
  - apply String.eqb_eq in E. subst k0.
    apply String.eqb_neq in Hneq. rewrite Hneq. exact IH.
  - destruct (k0 =? k); [reflexivity|exact IH].
Qed.

(** C6, as the handler has it.  The profile view fails with 404 when the
    user does not exist; otherwise it answers 200, and the answer has the
    keys [phone] and [contactEmail] exactly when the profile is public: a
    private profile is returned without them to every caller, its owner
    included, since the answer does not depend on the session. *)
Theorem viewProfile_hides_contact (req : Request) (db : DB) :
  (forall who, run (viewProfile (as_session who req)) db = run (viewProfile req) db)
  /\ match find (fun u => u_id u =? params req "id") (users db) with
     | None =>
         run (viewProfile req) db = (Ok (json 404 (error "User not found")), start db)
     | Some u =>
         exists fields,
           run (viewProfile req) db = (Ok (json 200 (VObj fields)), start db)
           /\ lookup "phone" fields
              = (if u_isPublicProfile u then Some (nullable (u_phone u)) else None)
           /\ lookup "contactEmail" fields
              = (if u_isPublicProfile u then Some (nullable (u_contactEmail u)) else None)
     end.
Proof.
  split; [reflexivity|].
  unfold viewProfile. unfold_handler.
  destruct (find (fun u => u_id u =? params req "id") (users db)) as [u|]; [|reflexivity].
  eexists. split; [reflexivity|].
  destruct (u_isPublicProfile u); cbn [negb].
  - split; reflexivity.
  - split.
    + rewrite lookup_delete_other by discriminate. apply lookup_delete_same.
    + apply lookup_delete_same.
Qed.

(** C6, counterexample.  User A has a private profile and views it under
    A's own session: the answer carries neither [phone] nor
    [contactEmail]. *)
Lemma viewProfile_owner_gets_no_contact :
  u_isPublicProfile (Sample.person "A" false) = false
  /\ find (fun u => u_id u =? "A") (users Sample.db0) = Some (Sample.person "A" false)
  /\ session (Sample.request "A" [("id", "A")] (VObj [])) = SessionOf "A"
  /\ exists resp,
       run (viewProfile (Sample.request "A" [("id", "A")] (VObj []))) Sample.db0
       = (Ok resp, start Sample.db0)
       /\ status resp = 200
       /\ field "phone" (payload resp) = None
       /\ field "contactEmail" (payload resp) = None.
Proof.
  repeat split. eexists. repeat split.
Qed.







(** *** Bodies that [networkSchema] accepts *)

Lemma z_elements_strings (p : list PathSeg) (l : list string) (i : nat) :
  z_elements p i (map VStr l) = ([], l).
Proof.
  revert i. induction l as [|s l IH]; intros i; cbn [map z_elements]; [reflexivity|].
  rewrite IH. reflexivity.
Qed.

Lemma z_string_bounds (lo hi : nat) (p : list PathSeg) (s : string) :
  lo <= String.length s <= hi -> z_string [Min lo; Max hi] p (VStr s) = inr s.
Proof.
  intros [Hlo Hhi]. cbn [z_string flat_map str_issue].
  destruct (Nat.ltb_spec (String.length s) lo); [lia|].
  destruct (Nat.ltb_spec hi (String.length s)); [lia|]. reflexivity.
Qed.

Lemma z_optional_max (hi : nat) (p : list PathSeg) (s : option string) :
  (forall x, s = Some x -> String.length x <= hi) ->
  z_optional (z_string [Max hi]) p (option_map VStr s) = inr s.
Proof.
  intros H. destruct s as [x|]; cbn [option_map z_optional]; [|reflexivity].
  cbn [z_string flat_map str_issue].
  destruct (Nat.ltb_spec hi (String.length x)); [|reflexivity].
  specialize (H x eq_refl). lia.
Qed.

Lemma z_optional_format (ok : string -> bool) (p : list PathSeg) (s : option string) :
  (forall x, s = Some x -> ok x = true) ->
  z_optional (z_string [Format ok]) p (option_map VStr s) = inr s.
Proof.
  intros H. destruct s as [x|]; cbn [option_map z_optional]; [|reflexivity].
  cbn [z_string flat_map str_issue]. rewrite (H x eq_refl). reflexivity.
Qed.

Lemma z_array_string_bounds (lo hi : nat) (p : list PathSeg) (l : list string) :
  lo <= length l <= hi -> z_array_string lo hi p (VArr (map VStr l)) = inr l.
Proof.
  intros [Hlo Hhi]. unfold z_array_string. rewrite z_elements_strings, length_map.
  destruct (Nat.ltb_spec (length l) lo); [lia|].
  destruct (Nat.ltb_spec hi (length l)); [lia|]. reflexivity.
Qed.

Lemma networkSchema_accepts (is_url : string -> bool) (o : list (string * value))
    (data : NetworkData) :
  lookup "name" o = Some (VStr (d_name data)) ->
  1 <= String.length (d_name data) <= 100 ->
  lookup "description" o = option_map VStr (d_description data) ->
  (forall x, d_description data = Some x -> String.length x <= 500) ->
  lookup "themes" o = Some (VArr (map VStr (d_themes data))) ->
  1 <= length (d_themes data) <= 10 ->
  lookup "logoUrl" o = option_map VStr (d_logoUrl data) ->
  (forall x, d_logoUrl data = Some x -> is_url x = true) ->
  networkSchema is_url (VObj o) = inr data.
Proof.
  intros Hname Hlen Hdesc Hdlen Hthemes Htlen Hlogo Hurl.
  unfold networkSchema. rewrite Hname, Hdesc, Hthemes, Hlogo.
  unfold z_required.
  rewrite (z_string_bounds 1 100 _ _ Hlen), (z_optional_max 500 _ _ Hdlen),
    (z_array_string_bounds 1 10 _ _ Htlen), (z_optional_format is_url _ _ Hurl).
  destruct data; reflexivity.
Qed.

Lemma filter_network_fresh (id : string) (db : DB) :
  membership_fk db -> has_network db id = false ->
  filter (fun m => m_networkId m =? id) (memberships db) = [].
Proof.
  intros Hfk Hfresh.
  destruct (filter (fun m => m_networkId m =? id) (memberships db)) as [|m r] eqn:E;
    [reflexivity|].
  assert (Hin : In m (filter (fun m => m_networkId m =? id) (memberships db)))
    by (rewrite E; now left).
  apply filter_In in Hin. destruct Hin as [Hin Hid].
  apply String.eqb_eq in Hid. specialize (Hfk m Hin). congruence.
Qed.

Lemma has_network_added (db : DB) (n : Network) :
  has_network (with_networks db (networks db ++ [n])) (n_id n) = true.
Proof.
  unfold has_network. cbn [with_networks networks].
  rewrite existsb_app. cbn. rewrite String.eqb_refl. apply orb_true_iff. right. reflexivity.
Qed.

(** C2, as the handler has it.  For an authenticated caller and a body
    within the schema's bounds, on a database whose generator gives unused
    identifiers: when the store takes the text of the body, [createNetwork]
    answers 200 with the new network, and the final state holds exactly one
    membership for it, the caller's, with role owner and status active; the
    network row and the membership row are written by two statements, the
    network first.  When the body holds text the store refuses, the insert
    fails, the answer is 400 and nothing is written. *)
Theorem createNetwork_owner_membership
    (message : Exn -> string) (issue_message : ZodIssue -> string)
    (is_url : string -> bool) (g1 g2 : Gen) (caller : string) (req : Request) (db : DB)
    (o : list (string * value)) (data : NetworkData) :
  body req = VObj o ->
  lookup "name" o = Some (VStr (d_name data)) ->
  1 <= String.length (d_name data) <= 100 ->
  lookup "description" o = option_map VStr (d_description data) ->
  (forall x, d_description data = Some x -> String.length x <= 500) ->
  lookup "themes" o = Some (VArr (map VStr (d_themes data))) ->
  1 <= length (d_themes data) <= 10 ->
  lookup "logoUrl" o = option_map VStr (d_logoUrl data) ->
  (forall x, d_logoUrl data = Some x -> is_url x = true) ->
  has_user db caller = true ->
  membership_fk db ->
  has_network db (g_id g1) = false ->
  existsb (fun m => m_id m =? g_id g2) (memberships db) = false ->
  if network_data_storable data
  then
    exists db',
      run (createNetwork message issue_message is_url g1 g2 caller req) db
      = (Ok (json 200 (VObj [("ok", VBool true);
                             ("network", network_json (new_network g1 data caller))])),
         {| cur := db';
            past := [with_networks db (networks db ++ [new_network g1 data caller]); db] |})
      /\ networks db' = networks db ++ [new_network g1 data caller]
      /\ filter (fun m => m_networkId m =? g_id g1) (memberships db')
         = [new_membership g2 (g_id g1) caller "owner" "active"]
      /\ has_network (with_networks db (networks db ++ [new_network g1 data caller]))
                     (g_id g1) = true
      /\ filter (fun m => m_networkId m =? g_id g1)
                (memberships (with_networks db (networks db ++ [new_network g1 data caller])))
         = []
  else
    run (createNetwork message issue_message is_url g1 g2 caller req) db
    = (Ok (json 400 (error (message UnknownRequestError))), start db).
Proof.
  intros Hbody Hname Hlen Hdesc Hdlen Hthemes Htlen Hlogo Hurl Huser Hfk Hfresh1 Hfresh2.
  pose proof (networkSchema_accepts is_url o data Hname Hlen Hdesc Hdlen Hthemes Htlen
                Hlogo Hurl) as Hparse.
  destruct (network_data_storable data) eqn:Hstorable;
    [|unfold createNetwork, network_create; unfold_handler;
      rewrite Hbody, Hparse; reduce_run; rewrite Hstorable; reflexivity].
  pose proof (filter_network_fresh (g_id g1) db Hfk Hfresh1) as Hnone.
  set (net := new_network g1 data caller).
  exists (with_memberships (with_networks db (networks db ++ [net]))
            (memberships db ++ [new_membership g2 (g_id g1) caller "owner" "active"])).
  split; [|split; [|split; [|split]]].
  - unfold createNetwork, network_create, networkMembership_create. unfold_handler.
    rewrite Hbody, Hparse. reduce_run. rewrite Hstorable. reduce_run.
    unfold insert_check at 1.
    rewrite Hfresh1, Huser. cbn [find snd negb]. reduce_run. fold net.
    unfold insert_check. cbn [with_networks memberships].
    rewrite Hfresh2.
    assert (Hpair : existsb (same_member (n_id net) caller) (memberships db) = false).
    { destruct (existsb (same_member (n_id net) caller) (memberships db)) eqn:E;
        [|reflexivity].
      apply existsb_exists in E. destruct E as [m [Hin Hm]].
      apply same_member_true in Hm. destruct Hm as [Hm _].
      specialize (Hfk m Hin). rewrite Hm in Hfk. cbn in Hfk. congruence. }
    rewrite Hpair.
    rewrite (has_network_added db net).
    change (has_user (with_networks db (networks db ++ [net])) caller)
      with (has_user db caller).
    rewrite Huser. cbn [find snd negb]. reflexivity.
  - reflexivity.
  - cbn [with_memberships memberships]. rewrite filter_app, Hnone.
    cbn. rewrite String.eqb_refl. reflexivity.
  - exact (has_network_added db net).
  - exact Hnone.
Qed.

(** In the sample A creates n1; the same request with U+0000 in the name
    passes the schema and is answered 400. *)
Lemma createNetwork_owner_membership_witness :
  (exists db',
    run (createNetwork Sample.msg Sample.issue_msg Sample.well_formed
           (Sample.at_ "n1") (Sample.at_ "m1") "A" (Sample.request "A" [] Sample.tech))
        Sample.db0
    = (Ok (json 200
             (VObj [("ok", VBool true);
                    ("network",
                     network_json
                       (new_network (Sample.at_ "n1")
                          {| d_name := "Tech Reviewers"; d_description := None;
                             d_themes := ["tech"]; d_logoUrl := None |} "A"))])),
       {| cur := db';
          past := [with_networks Sample.db0
                     (networks Sample.db0
                      ++ [new_network (Sample.at_ "n1")
                            {| d_name := "Tech Reviewers"; d_description := None;
                               d_themes := ["tech"]; d_logoUrl := None |} "A"]);
                   Sample.db0] |})
    /\ networks db'
       = networks Sample.db0
         ++ [new_network (Sample.at_ "n1")
               {| d_name := "Tech Reviewers"; d_description := None;
                  d_themes := ["tech"]; d_logoUrl := None |} "A"]
    /\ filter (fun m => m_networkId m =? "n1") (memberships db')
       = [new_membership (Sample.at_ "m1") "n1" "A" "owner" "active"]
    /\ has_network
         (with_networks Sample.db0
            (networks Sample.db0
             ++ [new_network (Sample.at_ "n1")
                   {| d_name := "Tech Reviewers"; d_description := None;
                      d_themes := ["tech"]; d_logoUrl := None |} "A"]))
         "n1" = true
    /\ filter (fun m => m_networkId m =? "n1")
              (memberships
                 (with_networks Sample.db0
                    (networks Sample.db0
                     ++ [new_network (Sample.at_ "n1")
                           {| d_name := "Tech Reviewers"; d_description := None;
                              d_themes := ["tech"]; d_logoUrl := None |} "A"])))
       = [])
  /\ run (createNetwork Sample.msg Sample.issue_msg Sample.well_formed
            (Sample.at_ "n1") (Sample.at_ "m1") "A"
            (Sample.request "A" []
               (VObj [("name", VStr (String "a"%char (String Ascii.zero "b")));
                      ("themes", VArr [VStr "tech"])])))
         Sample.db0
     = (Ok (json 400 (error "Error occurred during query execution")), start Sample.db0).
Proof.
  split.
  - pose proof (createNetwork_owner_membership Sample.msg Sample.issue_msg
                  Sample.well_formed (Sample.at_ "n1") (Sample.at_ "m1") "A"
                  (Sample.request "A" [] Sample.tech) Sample.db0
                  [("name", VStr "Tech Reviewers"); ("themes", VArr [VStr "tech"])]
                  {| d_name := "Tech Reviewers"; d_description := None;
                     d_themes := ["tech"]; d_logoUrl := None |}) as H.
    cbv beta iota delta [network_data_storable storable storable_opt forallb d_name
                           d_description d_themes d_logoUrl Ascii.eqb Ascii.zero
                           Bool.eqb negb andb] in H.
    apply H; try reflexivity.
    + cbn. lia.
    + intros x Hx. discriminate Hx.
    + cbn. lia.
    + intros x Hx. discriminate Hx.
    + intros m Hm. destruct Hm.
  - pose proof (createNetwork_owner_membership Sample.msg Sample.issue_msg
                  Sample.well_formed (Sample.at_ "n1") (Sample.at_ "m1") "A"
                  (Sample.request "A" []
                     (VObj [("name", VStr (String "a"%char (String Ascii.zero "b")));
                            ("themes", VArr [VStr "tech"])]))
                  Sample.db0
                  [("name", VStr (String "a"%char (String Ascii.zero "b")));
                   ("themes", VArr [VStr "tech"])]
                  {| d_name := String "a"%char (String Ascii.zero "b");
                     d_description := None; d_themes := ["tech"]; d_logoUrl := None |}) as H.
    cbv beta iota delta [network_data_storable storable storable_opt forallb d_name
                           d_description d_themes d_logoUrl Ascii.eqb Ascii.zero
                           Bool.eqb negb andb] in H.
    apply H; try reflexivity.
    + cbn. lia.
    + intros x Hx. discriminate Hx.
    + cbn. lia.
    + intros x Hx. discriminate Hx.
    + intros m Hm. destruct Hm.
Defined.

(** C2, counterexample.  While A's request to create n1 runs, the store
    shows a state in which n1 exists and has no membership: the two rows
    are not written as one. *)
Lemma createNetwork_not_atomic :
  ~ never_memberless "n1"
      (snd (run (createNetwork Sample.msg Sample.issue_msg Sample.well_formed
                   (Sample.at_ "n1") (Sample.at_ "m1") "A"
                   (Sample.request "A" [] Sample.tech))
                Sample.db0)).
Proof.
  unfold never_memberless. intros H.
  apply Forall_inv_tail in H. apply Forall_inv in H.
  specialize (H eq_refl). discriminate H.
Qed.

Lemma find_map_application (id st : string) (l : list NetworkApplication) :
  find (fun x => a_id x =? id)
       (map (fun x => if a_id x =? id then set_application_status st x else x) l)
  = option_map (set_application_status st) (find (fun x => a_id x =? id) l).
Proof.
  induction l as [|a l IH]; cbn [map find option_map]; [reflexivity|].
  destruct (a_id a =? id) eqn:E.
  - cbn [set_application_status a_id]. rewrite E. reflexivity.
  - rewrite E. exact IH.
Qed.

(** C9, as the handler has it.  The owner of the network named in the path
    approves an application found by its id alone, whatever network the
    application was made to.  If the applicant already holds a membership
    in the path's network, the membership insert violates the unique index,
    the handler fails and nothing is written.  Otherwise the answer is 200,
    a membership of the applicant in the path's network is appended, and
    the application's status becomes approved. *)
Theorem approve_ignores_application_network
    (g : Gen) (caller : string) (req : Request) (db : DB)
    (net : Network) (app : NetworkApplication) :
  field "action" (body req) = Some (VStr "approve") ->
  find (fun n => n_id n =? params req "networkId") (networks db) = Some net ->
  n_ownerId net = caller ->
  find (fun a => a_id a =? params req "appId") (applications db) = Some app ->
  if existsb (same_member (params req "networkId") (a_applicantId app)) (memberships db)
  then
    exists e,
      is_unique_violation e = true
      /\ run (respondToApplication g caller req) db = (Throw e, start db)
  else
    existsb (fun m => m_id m =? g_id g) (memberships db) = false ->
    has_user db (a_applicantId app) = true ->
    exists db',
      run (respondToApplication g caller req) db
      = (Ok (json 200 ok_true),
         {| cur := db';
            past := [with_memberships db
                       (memberships db
                        ++ [new_membership g (params req "networkId") (a_applicantId app)
                              "member" "active"]);
                     db] |})
      /\ memberships db'
         = memberships db
           ++ [new_membership g (params req "networkId") (a_applicantId app)
                 "member" "active"]
      /\ find (fun a => a_id a =? params req "appId") (applications db')
         = Some (set_application_status "approved" app).
Proof.
  intros Haction Hnet Howner Happ.
  unfold respondToApplication, networkMembership_create, networkApplication_update.
  rewrite Haction. unfold_handler. reduce_run. rewrite String.eqb_refl. reduce_run.
  rewrite Hnet, Howner, eqb_refl_false. reduce_run. rewrite Happ. reduce_run.
  destruct (existsb (same_member (params req "networkId") (a_applicantId app))
              (memberships db)) eqn:Hmember.
  - destruct (insert_check_pair_taken
                (existsb (fun m => m_id m =? g_id g) (memberships db))
                ["networkId"; "userId"]
                [("networkId", has_network db (params req "networkId"));
                 ("userId", has_user db (a_applicantId app))]) as [e [He Hcheck]].
    exists e. split; [exact He|]. rewrite Hcheck. reflexivity.
  - intros Hfresh Huser.
    set (row := new_membership g (params req "networkId") (a_applicantId app)
                  "member" "active").
    exists (with_applications (with_memberships db (memberships db ++ [row]))
              (map (fun x => if a_id x =? params req "appId"
                             then set_application_status "approved" x else x)
                   (applications db))).
    split; [|split].
    + unfold insert_check. rewrite Hfresh, Huser.
      rewrite (find_some_exists _ _ _ Hnet : has_network db (params req "networkId") = true).
      cbn [find snd negb with_memberships applications cur].
      rewrite Happ. reflexivity.
    + reflexivity.
    + cbn [with_applications applications]. rewrite find_map_application.
      cbn [with_memberships applications]. rewrite Happ. reflexivity.
Qed.

(** In the sample, D has applied to B's network n2; A, who owns n1,
    approves that application through n1's path. *)
Lemma approve_ignores_application_network_witness :
  a_networkId (new_application (Sample.at_ "a2") "n2" "D" None) <> "n1"
  /\ exists db',
       run (respondToApplication (Sample.at_ "m5") "A"
              (Sample.request "A" [("networkId", "n1"); ("appId", "a2")]
                 (Sample.action "approve")))
           Sample.db6
       = (Ok (json 200 ok_true),
          {| cur := db';
             past := [with_memberships Sample.db6
                        (memberships Sample.db6
                         ++ [new_membership (Sample.at_ "m5") "n1" "D" "member" "active"]);
                      Sample.db6] |})
       /\ memberships db'
          = memberships Sample.db6
            ++ [new_membership (Sample.at_ "m5") "n1" "D" "member" "active"]
       /\ find (fun a => a_id a =? "a2") (applications db')
          = Some (set_application_status "approved"
                    (new_application (Sample.at_ "a2") "n2" "D" None)).
Proof.
  split; [discriminate|].
  pose proof (approve_ignores_application_network (Sample.at_ "m5") "A"
                (Sample.request "A" [("networkId", "n1"); ("appId", "a2")]
                   (Sample.action "approve"))
                Sample.db6
                (new_network (Sample.at_ "n1")
                   {| d_name := "Tech Reviewers"; d_description := None;
                      d_themes := ["tech"]; d_logoUrl := None |} "A")
                (new_application (Sample.at_ "a2") "n2" "D" None)) as H.
  vm_compute in H. vm_compute. apply H; reflexivity.
Defined.

(** C9, counterexample.  A owns n1 and has applied to B's network n2.
    When A approves that application through n1's path, the membership
    insert for (n1, A) violates the unique index: the handler fails, no
    membership is added and the application stays pending. *)
Lemma approve_conflicts_when_applicant_is_member :
  find (fun n => n_id n =? "n1") (networks Sample.db5)
  = Some (new_network (Sample.at_ "n1")
            {| d_name := "Tech Reviewers"; d_description := None;
               d_themes := ["tech"]; d_logoUrl := None |} "A")
  /\ find (fun a => a_id a =? "a1") (applications Sample.db5)
     = Some (new_application (Sample.at_ "a1") "n2" "A" (Some "hi"))
  /\ run (respondToApplication (Sample.at_ "m5") "A"
            (Sample.request "A" [("networkId", "n1"); ("appId", "a1")]
               (Sample.action "approve")))
         Sample.db5
     = (Throw (PrismaError (P2002 ["networkId"; "userId"])), start Sample.db5).
Proof.
  repeat split.
Qed.

(** ** Predicates kept along every run *)

Section Preserves.

Variable I : DB -> Prop.

Lemma preserves_ret {A} (a : A) : preserves I (ret a).
Proof. intros s Hs. exact Hs. Qed.

Lemma preserves_throw {A} (e : Exn) : preserves I (@throw A e).
Proof. intros s Hs. exact Hs. Qed.

Lemma preserves_read {A} (q : DB -> A) : preserves I (read q).
Proof. intros s Hs. exact Hs. Qed.

Lemma preserves_parse {A} (schema : value -> ZRes A) (v : value) :
  preserves I (parse schema v).
Proof. unfold parse. destruct (schema v); [apply preserves_throw|apply preserves_ret]. Qed.

Lemma preserves_bind {A B} (m : M A) (f : A -> M B) :
  preserves I m -> (forall a, preserves I (f a)) -> preserves I (bind m f).
Proof.
  intros Hm Hf s Hs. unfold bind. specialize (Hm s Hs).
  destruct (m s) as [[a|e] s']; cbn [snd] in *; [apply Hf; exact Hm|exact Hm].
Qed.

Lemma preserves_try_catch {A} (m : M A) (h : Exn -> M A) :
  preserves I m -> (forall e, preserves I (h e)) -> preserves I (try_catch m h).
Proof.
  intros Hm Hh s Hs. unfold try_catch. specialize (Hm s Hs).
  destruct (m s) as [[a|e] s']; cbn [snd] in *; [exact Hm|apply Hh; exact Hm].
Qed.

Lemma preserves_modify (f : DB -> DB) :
  (forall db, I db -> I (f db)) -> preserves I (modify f).
Proof.
  intros Hf s Hs. unfold modify, visible in *. cbn [snd cur past].
  constructor; [apply Hf; exact (Forall_inv Hs)|exact Hs].
Qed.

Lemma preserves_guarded_insert {A} (check : DB -> option Exn) (row : A) (ins : DB -> DB) :
  (forall db, I db -> check db = None -> I (ins db)) ->
  preserves I (guarded_insert check row ins).
Proof.
  intros Hins s Hs. unfold guarded_insert, visible in *.
  destruct (check (cur s)) eqn:Hcheck; cbn [snd cur past]; [exact Hs|].
  constructor; [apply Hins; [exact (Forall_inv Hs)|exact Hcheck]|exact Hs].
Qed.

End Preserves.

Ltac walk :=
  repeat match goal with
    | |- preserves _ (ret _) => apply preserves_ret
    | |- preserves _ (throw _) => apply preserves_throw
    | |- preserves _ (read _) => apply preserves_read
    | |- preserves _ (parse _ _) => apply preserves_parse
    | |- preserves _ (bind _ _) => apply preserves_bind; [|intros ?]
    | |- preserves _ (try_catch _ _) => apply preserves_try_catch; [|intros ?]
    | |- preserves _ (match ?x with _ => _ end) => destruct x
    | |- preserves _ (if ?x then _ else _) => destruct x
    | |- preserves _ (let _ := _ in _) => cbv zeta
    end.

Lemma terminal_accepted : terminal "accepted".
Proof. left. reflexivity. Qed.

Lemma terminal_rejected : terminal "rejected".
Proof. right. reflexivity. Qed.

Section Stable.

Variable message : Exn -> string.
Variable issue_message : ZodIssue -> string.
Variables is_uuid is_url is_email : string -> bool.
Variable fresh : string -> Prop.
Variable I : DB -> Prop.
Hypothesis HI : stable fresh I.

Ltac by_stable :=
  first
    [ apply (stable_network_create HI); assumption
    | apply (stable_network_update HI)
    | apply (stable_network_delete HI)
    | apply (stable_membership_create HI)
    | apply (stable_membership_delete HI)
    | apply (stable_invitation_create HI)
    | apply (stable_invitation_update HI);
      first [exact terminal_accepted|exact terminal_rejected]
    | apply (stable_application_create HI)
    | apply (stable_application_update HI)
    | apply (stable_user_update HI) ].

Lemma route_preserves (op : Op) (req : Request) :
  (forall g1 g2, op = CreateNetwork g1 g2 -> fresh (g_id g1)) ->
  preserves I (route message issue_message is_uuid is_url is_email op req).
Proof.
  intros Hfresh.
  destruct op as [g1 g2| | |g|g|g|g| | | ]; cbn [route];
    try (pose proof (Hfresh g1 g2 eq_refl) as Hg1);
    unfold authMiddleware, createNetwork, updateNetwork, deleteNetwork, inviteUser,
      respondToInvitation, applyToNetwork, respondToApplication, removeMember,
      updateProfile, viewProfile, network_findUnique, networkMembership_findUnique,
      networkInvitation_findUnique, networkApplication_findUnique, user_findUnique;
    walk; by_stable.
Qed.

Lemma after_preserves (op : Op) (req : Request) (db db' : DB) :
  (forall g1 g2, op = CreateNetwork g1 g2 -> fresh (g_id g1)) ->
  I db ->
  In db' (after message issue_message is_uuid is_url is_email op req db) ->
  I db'.
Proof.
  intros Hfresh Hdb Hin. unfold after, run in Hin.
  pose proof (route_preserves op req Hfresh (start db)) as H.
  assert (Hstart : Forall I (visible (start db))) by (constructor; [exact Hdb|constructor]).
  specialize (H Hstart). rewrite Forall_forall in H. exact (H db' Hin).
Qed.

End Stable.

(** *** Membership uniqueness *)

Lemma insert_check_none (pk pair : bool) (cols : list string) (fks : list (string * bool)) :
  insert_check pk pair cols fks = None ->
  pk = false /\ pair = false /\ forall fk, In fk fks -> snd fk = true.
Proof.
  unfold insert_check. destruct pk; [discriminate|]. destruct pair; [discriminate|].
  destruct (find (fun fk => negb (snd fk)) fks) as [[col b]|] eqn:E; [discriminate|].
  intros _. repeat split. intros fk Hin.
  pose proof (find_none _ _ E fk Hin) as H. now apply negb_false_iff in H.
Qed.

Lemma filter_filter_length {A} (f g : A -> bool) (l : list A) :
  length (filter f (filter g l)) <= length (filter f l).
Proof.
  induction l as [|a l IH]; cbn [filter]; [lia|].
  destruct (g a), (f a) eqn:Fa; cbn [filter length]; try rewrite Fa; cbn [length]; lia.
Qed.

Lemma existsb_false_filter {A} (f : A -> bool) (l : list A) :
  existsb f l = false -> filter f l = [].
Proof.
  induction l as [|a l IH]; cbn; [reflexivity|].
  destruct (f a); cbn; [discriminate|exact IH].
Qed.

Lemma unique_memberships_same (db db' : DB) :
  memberships db' = memberships db -> unique_memberships db -> unique_memberships db'.
Proof.
  intros Heq H n u. rewrite Heq. apply H.
Qed.

Lemma unique_memberships_filter (db : DB) (g : NetworkMembership -> bool) :
  unique_memberships db ->
  unique_memberships (with_memberships db (filter g (memberships db))).
Proof.
  intros H n u. cbn [with_memberships memberships].
  pose proof (filter_filter_length (same_member n u) g (memberships db)).
  specialize (H n u). lia.
Qed.

Lemma unique_memberships_insert (db : DB) (row : NetworkMembership) :
  existsb (same_member (m_networkId row) (m_userId row)) (memberships db) = false ->
  unique_memberships db ->
  unique_memberships (with_memberships db (memberships db ++ [row])).
Proof.
  intros Hnew H n u. cbn [with_memberships memberships].
  rewrite filter_app, length_app. cbn [filter].
  destruct (same_member n u row) eqn:E; cbn [length]; [|specialize (H n u); lia].
  apply same_member_true in E. destruct E as [<- <-].
  rewrite (existsb_false_filter _ _ Hnew). cbn. lia.
Qed.

Lemma unique_memberships_stable : stable (fun _ => True) unique_memberships.
Proof.
  constructor; intros;
    unfold network_create, network_update, network_delete, networkMembership_create,
      networkMembership_delete, networkInvitation_create, networkInvitation_update,
      networkApplication_create, networkApplication_update, user_update,
      network_findUnique, networkMembership_findUnique, networkInvitation_findUnique,
      networkApplication_findUnique, user_findUnique;
    walk;
    try (apply preserves_modify; intros db Hdb);
    try (apply preserves_guarded_insert; intros db Hdb Hcheck);
    try (apply (unique_memberships_same db); [reflexivity|exact Hdb]).
  - (* network_delete *)
    exact (unique_memberships_filter db _ Hdb).
  - (* networkMembership_create *)
    apply insert_check_none in Hcheck. destruct Hcheck as [_ [Hpair _]].
    apply (unique_memberships_insert db (new_membership g n u r st)); assumption.
  - (* networkMembership_delete *)
    exact (unique_memberships_filter db _ Hdb).
Qed.

Lemma reachable_keeps
    (message : Exn -> string) (issue_message : ZodIssue -> string)
    (is_uuid is_url is_email : string -> bool) (I : DB -> Prop) (db0 db : DB) :
  stable (fun _ => True) I ->
  I db0 ->
  reachable message issue_message is_uuid is_url is_email db0 db ->
  I db.
Proof.
  intros HI H0 Hreach. induction Hreach as [|db op req db' _ IH Hin]; [exact H0|].
  apply (after_preserves message issue_message is_uuid is_url is_email
           (fun _ => True) I HI op req db db'); [intros; exact Logic.I|exact IH|exact Hin].
Qed.

(** C3.  Every state that a sequence of requests to the routes can leave
    visible, the states between the writes of one request included, has at
    most one membership row per (network, user), provided the sequence
    started from a state that had. *)
Theorem memberships_stay_unique
    (message : Exn -> string) (issue_message : ZodIssue -> string)
    (is_uuid is_url is_email : string -> bool) (db0 db : DB) :
  unique_memberships db0 ->
  reachable message issue_message is_uuid is_url is_email db0 db ->
  forall networkId userId,
    length (filter (same_member networkId userId) (memberships db)) <= 1.
Proof.
  intros H0 Hreach.
  exact (reachable_keeps message issue_message is_uuid is_url is_email
           unique_memberships db0 db unique_memberships_stable H0 Hreach).
Qed.

(** The sample states are reached from [Sample.db0] through the routes. *)
Lemma sample_reachable :
  reachable Sample.msg Sample.issue_msg Sample.well_formed Sample.well_formed
    Sample.well_formed Sample.db0 Sample.db4.
Proof.
  apply reach_step
    with (db := Sample.db3) (op := RespondToInvitation (Sample.at_ "m3"))
         (req := Sample.request "C" [("id", "i1")] (Sample.action "accept"));
    [|left; reflexivity].
  apply reach_step
    with (db := Sample.db2) (op := RespondToInvitation (Sample.at_ "m2"))
         (req := Sample.request "C" [("id", "i1")] (Sample.action "reject"));
    [|left; reflexivity].
  apply reach_step
    with (db := Sample.db1) (op := InviteUser (Sample.at_ "i1"))
         (req := Sample.request "A" [("id", "n1")] (VObj [("userId", VStr "C")]));
    [|left; reflexivity].
  apply reach_step
    with (db := Sample.db0) (op := CreateNetwork (Sample.at_ "n1") (Sample.at_ "m1"))
         (req := Sample.request "A" [] Sample.tech);
    [|left; reflexivity].
  apply reach_start.
Defined.

Lemma memberships_stay_unique_witness :
  length (filter (same_member "n1" "C") (memberships Sample.db4)) <= 1.
Proof.
  apply (memberships_stay_unique Sample.msg Sample.issue_msg Sample.well_formed
           Sample.well_formed Sample.well_formed Sample.db0 Sample.db4).
  - intros n u. cbn. lia.
  - exact sample_reachable.
Defined.

(** *** Invitations in a terminal state *)

Lemma same_invitee_true (n u : string) (i : NetworkInvitation) :
  same_invitee n u i = true <-> i_networkId i = n /\ i_invitedUserId i = u.
Proof.
  unfold same_invitee. rewrite andb_true_iff, !String.eqb_eq. tauto.
Qed.

Lemma set_status_twice (st st' : string) (i : NetworkInvitation) :
  set_invitation_status st (set_invitation_status st' i) = set_invitation_status st i.
Proof. reflexivity. Qed.

Lemma set_status_same (i : NetworkInvitation) :
  set_invitation_status (i_status i) i = i.
Proof. destruct i; reflexivity. Qed.

Lemma has_network_patched (id id' : string) (p : NetworkPatch) (l : list Network) :
  existsb (fun n => n_id n =? id)
          (map (fun x => if n_id x =? id' then patch_network p x else x) l)
  = existsb (fun n => n_id n =? id) l.
Proof.
  induction l as [|a l IH]; cbn [map existsb]; [reflexivity|].
  rewrite IH. destruct (n_id a =? id'); reflexivity.
Qed.

Lemma filter_statuses (n u id st : string) (l : list NetworkInvitation) :
  filter (same_invitee n u)
         (map (fun x => if i_id x =? id then set_invitation_status st x else x) l)
  = map (fun x => if i_id x =? id then set_invitation_status st x else x)
        (filter (same_invitee n u) l).
Proof.
  induction l as [|a l IH]; cbn [map filter]; [reflexivity|].
  assert (E : same_invitee n u (if i_id a =? id then set_invitation_status st a else a)
              = same_invitee n u a) by (destruct (i_id a =? id); reflexivity).
  rewrite E. destruct (same_invitee n u a); cbn [map]; rewrite IH; reflexivity.
Qed.

Lemma existsb_statuses (n u id st : string) (l : list NetworkInvitation) :
  existsb (same_invitee n u)
          (map (fun x => if i_id x =? id then set_invitation_status st x else x) l)
  = existsb (same_invitee n u) l.
Proof.
  induction l as [|a l IH]; cbn [map existsb]; [reflexivity|].
  rewrite IH. destruct (i_id a =? id); reflexivity.
Qed.

Section Settled.

Variable i0 : NetworkInvitation.

Let pair := same_invitee (i_networkId i0) (i_invitedUserId i0).

Lemma settled_same (db db' : DB) :
  invitations db' = invitations db ->
  has_network db' (i_networkId i0) = has_network db (i_networkId i0) ->
  settled i0 db -> settled i0 db'.
Proof.
  unfold settled. intros -> ->. tauto.
Qed.

Lemma settled_network_added (db : DB) (n : Network) :
  n_id n <> i_networkId i0 ->
  settled i0 db -> settled i0 (with_networks db (networks db ++ [n])).
Proof.
  intros Hneq. apply settled_same; [reflexivity|].
  unfold has_network. cbn [with_networks networks]. rewrite existsb_app. cbn [existsb].
  apply String.eqb_neq in Hneq. rewrite Hneq, !orb_false_r. reflexivity.
Qed.

Lemma settled_cascade (id : string) (db : DB) :
  settled i0 db -> settled i0 (cascade_delete id db).
Proof.
  intros [Hone [Hrows Hnet]]. unfold settled. cbn [cascade_delete invitations].
  split; [|split].
  - pose proof (filter_filter_length pair (fun i => negb (i_networkId i =? id))
                  (invitations db)). fold pair in Hone. unfold pair in *. lia.
  - intros i Hin. apply filter_In in Hin. apply Hrows. exact (proj1 Hin).
  - intros Hstill. unfold has_network in Hstill. cbn [cascade_delete networks] in Hstill.
    apply existsb_exists in Hstill. destruct Hstill as [n [Hn Hid]].
    apply filter_In in Hn. destruct Hn as [Hn Hkept].
    apply String.eqb_eq in Hid. rewrite Hid in Hkept.
    assert (Hhas : has_network db (i_networkId i0) = true).
    { apply existsb_exists. exists n. split; [exact Hn|]. rewrite Hid.
      apply String.eqb_refl. }
    specialize (Hnet Hhas). apply existsb_exists in Hnet. destruct Hnet as [i [Hi Hp]].
    apply existsb_exists. exists i. split; [|exact Hp].
    apply filter_In. split; [exact Hi|].
    apply same_invitee_true in Hp. destruct Hp as [Hp _]. rewrite Hp. exact Hkept.
Qed.

Lemma settled_invited (db : DB) (row : NetworkInvitation) :
  existsb (same_invitee (i_networkId row) (i_invitedUserId row)) (invitations db) = false ->
  has_network db (i_networkId row) = true ->
  settled i0 db -> settled i0 (with_invitations db (invitations db ++ [row])).
Proof.
  intros Hfree Hexists [Hone [Hrows Hnet]].
  assert (Hother : same_invitee (i_networkId i0) (i_invitedUserId i0) row = false).
  { destruct (same_invitee (i_networkId i0) (i_invitedUserId i0) row) eqn:E;
      [|reflexivity].
    apply same_invitee_true in E. destruct E as [E1 E2].
    rewrite E1 in Hexists. specialize (Hnet Hexists).
    rewrite E1, E2 in Hfree. congruence. }
  unfold settled. cbn [with_invitations invitations].
  split; [|split].
  - rewrite filter_app. cbn [filter]. rewrite Hother, app_nil_r. exact Hone.
  - intros i Hin Hp. apply in_app_or in Hin. destruct Hin as [Hin|[<-|[]]].
    + exact (Hrows i Hin Hp).
    + congruence.
  - intros Hhas. rewrite existsb_app. apply orb_true_iff. left. exact (Hnet Hhas).
Qed.

Lemma settled_status (id st : string) (db : DB) :
  terminal st ->
  settled i0 db ->
  settled i0 (with_invitations db
                (map (fun x => if i_id x =? id then set_invitation_status st x else x)
                     (invitations db))).
Proof.
  intros Hst [Hone [Hrows Hnet]]. unfold settled. cbn [with_invitations invitations].
  split; [|split].
  - rewrite filter_statuses, length_map. exact Hone.
  - intros i Hin Hp. apply in_map_iff in Hin. destruct Hin as [x [<- Hx]].
    destruct (i_id x =? id).
    + destruct (Hrows x Hx Hp) as [st' [_ ->]]. exists st. split; [exact Hst|].
      apply set_status_twice.
    + exact (Hrows x Hx Hp).
  - intros Hhas. rewrite existsb_statuses. exact (Hnet Hhas).
Qed.

Lemma settled_stable : stable (fun id => id <> i_networkId i0) (settled i0).
Proof.
  constructor; intros;
    unfold network_create, network_update, network_delete, networkMembership_create,
      networkMembership_delete, networkInvitation_create, networkInvitation_update,
      networkApplication_create, networkApplication_update, user_update,
      network_findUnique, networkMembership_findUnique, networkInvitation_findUnique,
      networkApplication_findUnique, user_findUnique;
    walk;
    try (apply preserves_modify; intros db Hdb);
    try (apply preserves_guarded_insert; intros db Hdb Hcheck);
    try (apply (settled_same db); [reflexivity|reflexivity|exact Hdb]).
  - (* network_create *)
    apply (settled_network_added db (new_network g d o)); assumption.
  - (* network_update *)
    apply (settled_same db); [reflexivity| |exact Hdb].
    unfold has_network. cbn [with_networks networks]. apply has_network_patched.
  - (* network_delete *)
    apply settled_cascade. exact Hdb.
  - (* networkInvitation_create *)
    apply insert_check_none in Hcheck. destruct Hcheck as [_ [Hpair Hfks]].
    apply (settled_invited db (new_invitation g n u v msg)); [exact Hpair| |exact Hdb].
    apply (Hfks ("networkId", has_network db n)). left. reflexivity.
  - (* networkInvitation_update *)
    apply settled_status; assumption.
Qed.

End Settled.

Lemma fresh_not_issued (op : Op) (issued : list string) (n : string) :
  (forall id, In id (op_ids op) -> ~ In id issued) ->
  In n issued ->
  forall g1 g2, op = CreateNetwork g1 g2 -> g_id g1 <> n.
Proof.
  intros Hfresh Hn g1 g2 -> Heq. apply (Hfresh (g_id g1)); [left; reflexivity|].
  rewrite Heq. exact Hn.
Qed.

Lemma wreachable_settled
    (message : Exn -> string) (issue_message : ZodIssue -> string)
    (is_uuid is_url is_email : string -> bool) (i0 : NetworkInvitation) (w w' : World) :
  wreachable message issue_message is_uuid is_url is_email w w' ->
  In (i_networkId i0) (w_issued w) ->
  settled i0 (w_db w) ->
  In (i_networkId i0) (w_issued w') /\ settled i0 (w_db w').
Proof.
  intros Hreach Hissued Hstart.
  induction Hreach as [|w1 op req db' _ IH Hfresh Hin]; [split; assumption|].
  destruct IH as [Hin1 Hset1]. cbn [w_db w_issued]. split.
  - apply in_or_app. right. exact Hin1.
  - apply (after_preserves message issue_message is_uuid is_url is_email
             (fun id => id <> i_networkId i0) (settled i0) (settled_stable i0)
             op req (w_db w1) db'); [|exact Hset1|exact Hin].
    exact (fresh_not_issued op (w_issued w1) (i_networkId i0) Hfresh Hin1).
Qed.

Lemma find_map_invitation (id st : string) (l : list NetworkInvitation) :
  find (fun x => i_id x =? id)
       (map (fun x => if i_id x =? id then set_invitation_status st x else x) l)
  = option_map (set_invitation_status st) (find (fun x => i_id x =? id) l).
Proof.
  induction l as [|a l IH]; cbn [map find option_map]; [reflexivity|].
  destruct (i_id a =? id) eqn:E.
  - cbn [set_invitation_status i_id]. rewrite E. reflexivity.
  - rewrite E. exact IH.
Qed.

(** C5, as the handlers have it.  Take an invitation that is the only one
    of its (network, user) pair and is accepted or rejected, in a world
    whose generator has already issued the network's identifier.  In every
    state that later requests leave visible, the pair has at most one
    invitation, and any invitation of the pair is that same row with
    status accepted or rejected: it is never pending again and the pair
    gets no new invitation.  The status is not frozen, though: whatever the
    status of an invitation, its invited user, if not yet a member of the
    network, can accept it, which adds the membership and sets the status
    to accepted. *)
Theorem terminal_invitation_never_pending
    (message : Exn -> string) (issue_message : ZodIssue -> string)
    (is_uuid is_url is_email : string -> bool) (i0 : NetworkInvitation) (w w' : World) :
  wreachable message issue_message is_uuid is_url is_email w w' ->
  In (i_networkId i0) (w_issued w) ->
  filter (same_invitee (i_networkId i0) (i_invitedUserId i0)) (invitations (w_db w)) = [i0] ->
  terminal (i_status i0) ->
  (length (filter (same_invitee (i_networkId i0) (i_invitedUserId i0))
                  (invitations (w_db w'))) <= 1
   /\ forall i, In i (invitations (w_db w')) ->
                same_invitee (i_networkId i0) (i_invitedUserId i0) i = true ->
                exists st, terminal st /\ i = set_invitation_status st i0)
  /\ forall (g : Gen) (req : Request) (db : DB) (inv : NetworkInvitation),
       field "action" (body req) = Some (VStr "accept") ->
       find (fun i => i_id i =? params req "id") (invitations db) = Some inv ->
       existsb (same_member (i_networkId inv) (i_invitedUserId inv)) (memberships db) = false ->
       existsb (fun m => m_id m =? g_id g) (memberships db) = false ->
       has_network db (i_networkId inv) = true ->
       has_user db (i_invitedUserId inv) = true ->
       exists db',
         run (respondToInvitation g (i_invitedUserId inv) req) db
         = (Ok (json 200 ok_true),
            {| cur := db';
               past := [with_memberships db
                          (memberships db
                           ++ [new_membership g (i_networkId inv) (i_invitedUserId inv)
                                 "member" "active"]);
                        db] |})
         /\ memberships db'
            = memberships db
              ++ [new_membership g (i_networkId inv) (i_invitedUserId inv) "member" "active"]
         /\ find (fun i => i_id i =? params req "id") (invitations db')
            = Some (set_invitation_status "accepted" inv).
Proof.
  intros Hreach Hissued Honly Hterminal. split.
  - assert (Hstart : settled i0 (w_db w)).
    { split; [rewrite Honly; cbn; lia|split].
      - intros i Hi Hp.
        assert (Hin : In i [i0]) by (rewrite <- Honly; apply filter_In; tauto).
        destruct Hin as [<-|[]]. exists (i_status i0).
        split; [exact Hterminal|]. symmetry. apply set_status_same.
      - intros _. apply existsb_exists. exists i0.
        assert (Hin : In i0 (filter (same_invitee (i_networkId i0) (i_invitedUserId i0))
                               (invitations (w_db w)))) by (rewrite Honly; left; reflexivity).
        apply filter_In in Hin. exact Hin. }
    destruct (wreachable_settled message issue_message is_uuid is_url is_email i0 w w'
                Hreach Hissued Hstart) as [_ [Hone' [Hrows' _]]].
    split; assumption.
  - intros g req db inv Haction Hfind Hnotmember Hfresh Hnet Huser.
    set (row := new_membership g (i_networkId inv) (i_invitedUserId inv) "member" "active").
    exists (with_invitations (with_memberships db (memberships db ++ [row]))
              (map (fun x => if i_id x =? params req "id"
                             then set_invitation_status "accepted" x else x)
                   (invitations db))).
    split; [|split].
    + unfold respondToInvitation, networkMembership_create, networkInvitation_update.
      rewrite Haction. unfold_handler. reduce_run. rewrite String.eqb_refl. reduce_run.
      rewrite Hfind, eqb_refl_false. reduce_run.
      unfold insert_check. rewrite Hfresh, Hnotmember, Hnet, Huser.
      cbn [find snd negb with_memberships invitations cur]. rewrite Hfind. reflexivity.
    + reflexivity.
    + cbn [with_invitations invitations]. rewrite find_map_invitation.
      cbn [with_memberships invitations]. rewrite Hfind. reflexivity.
Qed.

(** In the sample, C has rejected the invitation to n1; C then accepts it
    and A invites C once more. *)
Lemma terminal_invitation_never_pending_witness :
  length (filter (same_invitee "n1" "C") (invitations Sample.db4)) <= 1
  /\ exists st,
       terminal st
       /\ set_invitation_status "accepted" (new_invitation (Sample.at_ "i1") "n1" "C" "A" None)
          = set_invitation_status st
              (set_invitation_status "rejected"
                 (new_invitation (Sample.at_ "i1") "n1" "C" "A" None)).
Proof.
  pose (i0 := set_invitation_status "rejected"
                (new_invitation (Sample.at_ "i1") "n1" "C" "A" None)).
  pose (w := {| w_db := Sample.db3; w_issued := ["n1"; "m1"; "i1"; "m2"] |}).
  pose (w1 := {| w_db := Sample.db4; w_issued := ["m3"; "n1"; "m1"; "i1"; "m2"] |}).
  pose (w2 := {| w_db := Sample.db4; w_issued := ["i2"; "m3"; "n1"; "m1"; "i1"; "m2"] |}).
  assert (Hreach : wreachable Sample.msg Sample.issue_msg Sample.well_formed
                     Sample.well_formed Sample.well_formed w w2).
  { apply (@wreach_step Sample.msg Sample.issue_msg Sample.well_formed Sample.well_formed
             Sample.well_formed w w1 (InviteUser (Sample.at_ "i2"))
             (Sample.request "A" [("id", "n1")] (VObj [("userId", VStr "C")])) Sample.db4).
    - apply (@wreach_step Sample.msg Sample.issue_msg Sample.well_formed Sample.well_formed
               Sample.well_formed w w (RespondToInvitation (Sample.at_ "m3"))
               (Sample.request "C" [("id", "i1")] (Sample.action "accept")) Sample.db4).
      + apply wreach_start.
      + intros id [<-|[]] Hin. cbn in Hin.
        repeat (destruct Hin as [Hin|Hin]; [discriminate Hin|]). exact Hin.
      + left. reflexivity.
    - intros id [<-|[]] Hin. cbn in Hin.
      repeat (destruct Hin as [Hin|Hin]; [discriminate Hin|]). exact Hin.
    - left. reflexivity. }
  destruct (terminal_invitation_never_pending Sample.msg Sample.issue_msg
              Sample.well_formed Sample.well_formed Sample.well_formed i0 w w2 Hreach)
    as [[Hone Hrows] _].
  - left. reflexivity.
  - reflexivity.
  - right. reflexivity.
  - split; [exact Hone|].
    apply Hrows; [left; reflexivity|reflexivity].
Defined.

(** C5, counterexample.  In the sample C has rejected A's invitation to
    n1 and is no member of n1.  C then accepts the same invitation: the
    answer is 200, the row goes from rejected to accepted and C becomes
    a member of n1. *)
Lemma rejected_invitation_accepted_later :
  find (fun i => i_id i =? "i1") (invitations Sample.db3)
  = Some (set_invitation_status "rejected"
            (new_invitation (Sample.at_ "i1") "n1" "C" "A" None))
  /\ existsb (same_member "n1" "C") (memberships Sample.db3) = false
  /\ exists db',
       run (respondToInvitation (Sample.at_ "m3") "C"
              (Sample.request "C" [("id", "i1")] (Sample.action "accept")))
           Sample.db3
       = (Ok (json 200 ok_true),
          {| cur := db';
             past := [with_memberships Sample.db3
                        (memberships Sample.db3
                         ++ [new_membership (Sample.at_ "m3") "n1" "C" "member" "active"]);
                      Sample.db3] |})
       /\ find (fun i => i_id i =? "i1") (invitations db')
          = Some (set_invitation_status "accepted"
                    (new_invitation (Sample.at_ "i1") "n1" "C" "A" None))
       /\ find (same_member "n1" "C") (memberships db')
          = Some (new_membership (Sample.at_ "m3") "n1" "C" "member" "active").
Proof.
  split; [reflexivity|]. split; [reflexivity|].
  eexists. split; [reflexivity|]. split; reflexivity.
Qed.

(** ** Constraints of the schema along every run *)

Lemma same_applicant_true (n u : string) (a : NetworkApplication) :
  same_applicant n u a = true <-> a_networkId a = n /\ a_applicantId a = u.
Proof.
  unfold same_applicant. rewrite andb_true_iff, !String.eqb_eq. tauto.
Qed.

Ltac open_writes :=
  unfold network_create, network_update, network_delete, networkMembership_create,
    networkMembership_delete, networkInvitation_create, networkInvitation_update,
    networkApplication_create, networkApplication_update, user_update,
    network_findUnique, networkMembership_findUnique, networkInvitation_findUnique,
    networkApplication_findUnique, user_findUnique;
  walk;
  try (apply preserves_modify; intros db Hdb);
  try (apply preserves_guarded_insert; intros db Hdb Hcheck).

Lemma filter_applications_statuses (n u id st : string) (l : list NetworkApplication) :
  filter (same_applicant n u)
         (map (fun x => if a_id x =? id then set_application_status st x else x) l)
  = map (fun x => if a_id x =? id then set_application_status st x else x)
        (filter (same_applicant n u) l).
Proof.
  induction l as [|a l IH]; cbn [map filter]; [reflexivity|].
  assert (E : same_applicant n u (if a_id a =? id then set_application_status st a else a)
              = same_applicant n u a) by (destruct (a_id a =? id); reflexivity).
  rewrite E. destruct (same_applicant n u a); cbn [map]; rewrite IH; reflexivity.
Qed.

Lemma unique_invitations_stable : stable (fun _ => True) unique_invitations.
Proof.
  constructor; intros; open_writes; try exact Hdb; intros n' u'.
  - (* network_delete *)
    cbn [cascade_delete invitations].
    pose proof (filter_filter_length (same_invitee n' u')
                  (fun i => negb (i_networkId i =? id)) (invitations db)).
    specialize (Hdb n' u'). lia.
  - (* networkInvitation_create *)
    apply insert_check_none in Hcheck. destruct Hcheck as [_ [Hpair _]].
    cbn [with_invitations invitations]. rewrite filter_app, length_app. cbn [filter].
    destruct (same_invitee n' u' (new_invitation g n u v msg)) eqn:E; cbn [length];
      [|specialize (Hdb n' u'); lia].
    apply same_invitee_true in E. cbn in E. destruct E as [<- <-].
    rewrite (existsb_false_filter _ _ Hpair). cbn. lia.
  - (* networkInvitation_update *)
    cbn [with_invitations invitations]. rewrite filter_statuses, length_map. apply Hdb.
Qed.

Lemma unique_applications_stable : stable (fun _ => True) unique_applications.
Proof.
  constructor; intros; open_writes; try exact Hdb; intros n' u'.
  - (* network_delete *)
    cbn [cascade_delete applications].
    pose proof (filter_filter_length (same_applicant n' u')
                  (fun a => negb (a_networkId a =? id)) (applications db)).
    specialize (Hdb n' u'). lia.
  - (* networkApplication_create *)
    apply insert_check_none in Hcheck. destruct Hcheck as [_ [Hpair _]].
    cbn [with_applications applications]. rewrite filter_app, length_app. cbn [filter].
    destruct (same_applicant n' u' (new_application g n u msg)) eqn:E; cbn [length];
      [|specialize (Hdb n' u'); lia].
    apply same_applicant_true in E. cbn in E. destruct E as [<- <-].
    rewrite (existsb_false_filter _ _ Hpair). cbn. lia.
  - (* networkApplication_update *)
    cbn [with_applications applications].
    rewrite filter_applications_statuses, length_map. apply Hdb.
Qed.

(** X1.  Along every run of the routes, the states between two writes
    included, a (network, user) pair has at most one invitation and at most
    one application, whatever their status, provided the run started from a
    state where this held. *)
Theorem invitations_and_applications_stay_unique
    (message : Exn -> string) (issue_message : ZodIssue -> string)
    (is_uuid is_url is_email : string -> bool) (db0 db : DB) :
  unique_invitations db0 ->
  unique_applications db0 ->
  reachable message issue_message is_uuid is_url is_email db0 db ->
  (forall networkId userId,
      length (filter (same_invitee networkId userId) (invitations db)) <= 1)
  /\ (forall networkId userId,
         length (filter (same_applicant networkId userId) (applications db)) <= 1).
Proof.
  intros Hi Ha Hreach. split.
  - exact (reachable_keeps message issue_message is_uuid is_url is_email
             unique_invitations db0 db unique_invitations_stable Hi Hreach).
  - exact (reachable_keeps message issue_message is_uuid is_url is_email
             unique_applications db0 db unique_applications_stable Ha Hreach).
Qed.

Lemma invitations_and_applications_stay_unique_witness :
  length (filter (same_invitee "n1" "C") (invitations Sample.db4)) <= 1
  /\ length (filter (same_applicant "n1" "C") (applications Sample.db4)) <= 1.
Proof.
  destruct (invitations_and_applications_stay_unique Sample.msg Sample.issue_msg
              Sample.well_formed Sample.well_formed Sample.well_formed
              Sample.db0 Sample.db4) as [Hi Ha].
  - intros n u. cbn. lia.
  - intros n u. cbn. lia.
  - exact sample_reachable.
  - split; [apply Hi|apply Ha].
Defined.

Lemma existsb_key_false {A} (key : A -> string) (k : string) (l : list A) :
  existsb (fun x => key x =? k) l = false -> ~ In k (map key l).
Proof.
  intros H Hin. apply in_map_iff in Hin. destruct Hin as [x [Hk Hx]].
  assert (Htrue : existsb (fun x => key x =? k) l = true).
  { apply existsb_exists. exists x. split; [exact Hx|]. apply String.eqb_eq. exact Hk. }
  congruence.
Qed.

Lemma NoDup_added {A} (key : A -> string) (l : list A) (x : A) :
  existsb (fun y => key y =? key x) l = false ->
  NoDup (map key l) -> NoDup (map key (l ++ [x])).
Proof.
  intros Hnew Hl. rewrite map_app. cbn [map].
  apply NoDup_app; [exact Hl|repeat constructor; intros []|].
  intros k Hin [<-|[]]. exact (existsb_key_false key (key x) l Hnew Hin).
Qed.

Lemma NoDup_filtered {A} (key : A -> string) (keep : A -> bool) (l : list A) :
  NoDup (map key l) -> NoDup (map key (filter keep l)).
Proof.
  induction l as [|a l IH]; cbn [map filter]; [trivial|].
  intros H. inversion H as [|? ? Hnot Hrest]; subst.
  destruct (keep a); [|exact (IH Hrest)].
  cbn [map]. constructor; [|exact (IH Hrest)].
  intros Hin. apply Hnot. apply in_map_iff in Hin. destruct Hin as [x [Hk Hx]].
  apply filter_In in Hx. apply in_map_iff. exists x. tauto.
Qed.

Lemma map_key_updated {A} (key : A -> string) (id : string) (f : A -> A) (l : list A) :
  (forall x, key (f x) = key x) ->
  map key (map (fun x => if key x =? id then f x else x) l) = map key l.
Proof.
  intros Hf. rewrite map_map. apply map_ext. intros x.
  destruct (key x =? id); [apply Hf|reflexivity].
Qed.

Lemma primary_keys_stable : stable (fun _ => True) primary_keys.
Proof.
  constructor; intros; open_writes; try exact Hdb;
    destruct Hdb as [Hu [Hn [Hm [Hi Ha]]]]; unfold primary_keys;
    try (apply insert_check_none in Hcheck; destruct Hcheck as [Hpk _]).
  - (* network_create *)
    cbn [with_networks users networks memberships invitations applications].
    repeat split; try assumption.
    apply (NoDup_added n_id); assumption.
  - (* network_update *)
    cbn [with_networks users networks memberships invitations applications].
    repeat split; try assumption.
    rewrite (map_key_updated n_id); [exact Hn|reflexivity].
  - (* network_delete *)
    cbn [cascade_delete users networks memberships invitations applications].
    repeat split; try assumption; apply NoDup_filtered; assumption.
  - (* networkMembership_create *)
    cbn [with_memberships users networks memberships invitations applications].
    repeat split; try assumption.
    apply (NoDup_added m_id); assumption.
  - (* networkMembership_delete *)
    cbn [with_memberships users networks memberships invitations applications].
    repeat split; try assumption; apply NoDup_filtered; assumption.
  - (* networkInvitation_create *)
    cbn [with_invitations users networks memberships invitations applications].
    repeat split; try assumption.
    apply (NoDup_added i_id); assumption.
  - (* networkInvitation_update *)
    cbn [with_invitations users networks memberships invitations applications].
    repeat split; try assumption.
    rewrite (map_key_updated i_id); [exact Hi|reflexivity].
  - (* networkApplication_create *)
    cbn [with_applications users networks memberships invitations applications].
    repeat split; try assumption.
    apply (NoDup_added a_id); assumption.
  - (* networkApplication_update *)
    cbn [with_applications users networks memberships invitations applications].
    repeat split; try assumption.
    rewrite (map_key_updated a_id); [exact Ha|reflexivity].
  - (* user_update *)
    cbn [with_users users networks memberships invitations applications].
    repeat split; try assumption.
    rewrite (map_key_updated u_id); [exact Hu|reflexivity].
Qed.

(** X2.  No run of the routes ever leaves two rows with the same [id] in
    a table: every insert is refused when the generated identifier is
    already taken, and updates keep the identifier. *)
Theorem primary_keys_stay_unique
    (message : Exn -> string) (issue_message : ZodIssue -> string)
    (is_uuid is_url is_email : string -> bool) (db0 db : DB) :
  primary_keys db0 ->
  reachable message issue_message is_uuid is_url is_email db0 db ->
  NoDup (map u_id (users db))
  /\ NoDup (map n_id (networks db))
  /\ NoDup (map m_id (memberships db))
  /\ NoDup (map i_id (invitations db))
  /\ NoDup (map a_id (applications db)).
Proof.
  intros H0 Hreach.
  exact (reachable_keeps message issue_message is_uuid is_url is_email
           primary_keys db0 db primary_keys_stable H0 Hreach).
Qed.

Lemma sample_primary_keys : primary_keys Sample.db0.
Proof.
  unfold primary_keys. cbn.
  repeat split; repeat constructor; cbn; intuition discriminate.
Qed.

Lemma primary_keys_stay_unique_witness :
  NoDup (map u_id (users Sample.db4))
  /\ NoDup (map n_id (networks Sample.db4))
  /\ NoDup (map m_id (memberships Sample.db4))
  /\ NoDup (map i_id (invitations Sample.db4))
  /\ NoDup (map a_id (applications Sample.db4)).
Proof.
  exact (primary_keys_stay_unique Sample.msg Sample.issue_msg Sample.well_formed
           Sample.well_formed Sample.well_formed Sample.db0 Sample.db4
           sample_primary_keys sample_reachable).
Defined.

(** *** Foreign keys *)

Lemma has_network_more (db : DB) (n : Network) (id : string) :
  has_network db id = true -> has_network (with_networks db (networks db ++ [n])) id = true.
Proof.
  unfold has_network. cbn [with_networks networks]. rewrite existsb_app.
  intros ->. reflexivity.
Qed.

Lemma has_network_kept (db : DB) (id id' : string) :
  has_network db id = true -> id <> id' -> has_network (cascade_delete id' db) id = true.
Proof.
  unfold has_network. cbn [cascade_delete networks]. intros H Hneq.
  apply existsb_exists in H. destruct H as [n [Hin Hid]].
  apply existsb_exists. exists n. split; [|exact Hid].
  apply filter_In. split; [exact Hin|].
  apply String.eqb_eq in Hid. rewrite Hid. apply negb_true_iff. apply String.eqb_neq. exact Hneq.
Qed.

Lemma has_user_patched (id id' : string) (p : ProfileData) (l : list User) :
  existsb (fun u => u_id u =? id)
          (map (fun x => if u_id x =? id' then patch_user p x else x) l)
  = existsb (fun u => u_id u =? id) l.
Proof.
  induction l as [|a l IH]; cbn [map existsb]; [reflexivity|].
  rewrite IH. destruct (u_id a =? id'); reflexivity.
Qed.

Lemma foreign_keys_stable : stable (fun _ => True) foreign_keys.
Proof.
  constructor; intros; open_writes; try exact Hdb;
    destruct Hdb as [Hn [Hm [Hi Ha]]]; unfold foreign_keys;
    try (apply insert_check_none in Hcheck; destruct Hcheck as [_ [_ Hfks]]).
  - (* network_create *)
    cbn [with_networks networks memberships invitations applications].
    assert (Hmore : forall id, has_network db id = true ->
                               has_network (with_networks db
                                              (networks db ++ [new_network g d o])) id = true)
      by (intros id; apply has_network_more).
    change (has_user (with_networks db (networks db ++ [new_network g d o])))
      with (has_user db).
    split; [|split; [|split]].
    + intros row Hin. apply in_app_or in Hin. destruct Hin as [Hin|[<-|[]]]; [auto|].
      apply (Hfks ("ownerId", has_user db o)). left. reflexivity.
    + intros row Hin. destruct (Hm row Hin). auto.
    + intros row Hin. destruct (Hi row Hin) as [? [? ?]]. auto.
    + intros row Hin. destruct (Ha row Hin). auto.
  - (* network_update *)
    assert (Hsame : forall k,
               has_network (with_networks db
                              (map (fun x => if n_id x =? id then patch_network p x else x)
                                   (networks db))) k
               = has_network db k)
      by (intros; unfold has_network; cbn [with_networks networks];
          apply has_network_patched).
    split; [|split; [|split]];
      cbn [with_networks networks memberships invitations applications].
    + intros row Hin. apply in_map_iff in Hin. destruct Hin as [x [<- Hx]].
      specialize (Hn x Hx). destruct (n_id x =? id); exact Hn.
    + intros row Hin. rewrite Hsame. exact (Hm row Hin).
    + intros row Hin. rewrite Hsame. exact (Hi row Hin).
    + intros row Hin. rewrite Hsame. exact (Ha row Hin).
  - (* network_delete *)
    change (has_user (cascade_delete id db)) with (has_user db).
    split; [|split; [|split]];
      cbn [cascade_delete networks memberships invitations applications];
      intros row Hin; apply filter_In in Hin; destruct Hin as [Hin Hkeep];
      apply negb_true_iff in Hkeep; apply String.eqb_neq in Hkeep.
    + exact (Hn row Hin).
    + destruct (Hm row Hin). split; [apply has_network_kept|]; assumption.
    + destruct (Hi row Hin) as [? [? ?]]. repeat split; [apply has_network_kept| |]; assumption.
    + destruct (Ha row Hin). split; [apply has_network_kept|]; assumption.
  - (* networkMembership_create *)
    split; [exact Hn|split; [|split; [exact Hi|exact Ha]]].
    cbn [with_memberships memberships]. intros row Hin.
    apply in_app_or in Hin. destruct Hin as [Hin|[<-|[]]]; [exact (Hm row Hin)|].
    split.
    + apply (Hfks ("networkId", has_network db n)). left. reflexivity.
    + apply (Hfks ("userId", has_user db u)). right. left. reflexivity.
  - (* networkMembership_delete *)
    split; [exact Hn|split; [|split; [exact Hi|exact Ha]]].
    cbn [with_memberships memberships]. intros row Hin. apply filter_In in Hin.
    exact (Hm row (proj1 Hin)).
  - (* networkInvitation_create *)
    split; [exact Hn|split; [exact Hm|split; [|exact Ha]]].
    cbn [with_invitations invitations]. intros row Hin.
    apply in_app_or in Hin. destruct Hin as [Hin|[<-|[]]]; [exact (Hi row Hin)|].
    repeat split.
    + apply (Hfks ("networkId", has_network db n)). left. reflexivity.
    + apply (Hfks ("invitedUserId", has_user db u)). right. left. reflexivity.
    + apply (Hfks ("inviterId", has_user db v)). right. right. left. reflexivity.
  - (* networkInvitation_update *)
    split; [exact Hn|split; [exact Hm|split; [|exact Ha]]].
    cbn [with_invitations invitations]. intros row Hin.
    apply in_map_iff in Hin. destruct Hin as [x [<- Hx]].
    specialize (Hi x Hx). destruct (i_id x =? id); exact Hi.
  - (* networkApplication_create *)
    split; [exact Hn|split; [exact Hm|split; [exact Hi|]]].
    cbn [with_applications applications]. intros row Hin.
    apply in_app_or in Hin. destruct Hin as [Hin|[<-|[]]]; [exact (Ha row Hin)|].
    split.
    + apply (Hfks ("networkId", has_network db n)). left. reflexivity.
    + apply (Hfks ("applicantId", has_user db u)). right. left. reflexivity.
  - (* networkApplication_update *)
    split; [exact Hn|split; [exact Hm|split; [exact Hi|]]].
    cbn [with_applications applications]. intros row Hin.
    apply in_map_iff in Hin. destruct Hin as [x [<- Hx]].
    specialize (Ha x Hx). destruct (a_id x =? id); exact Ha.
  - (* user_update *)
    assert (Hsame : forall who,
               has_user (with_users db
                           (map (fun x => if u_id x =? id then patch_user p x else x)
                                (users db))) who
               = has_user db who)
      by (intros; unfold has_user; cbn [with_users users]; apply has_user_patched).
    change (has_network (with_users db
                           (map (fun x => if u_id x =? id then patch_user p x else x)
                                (users db))))
      with (has_network db).
    split; [|split; [|split]];
      cbn [with_users networks memberships invitations applications];
      intros row Hin; rewrite ?Hsame; auto.
Qed.

(** X3.  Along every run of the routes, the states between two writes
    included, the foreign keys of the migration hold: every network's
    owner, and every membership's, invitation's and application's network
    and users exist.  Deleting a network never leaves a row of its own
    behind and no route removes a user. *)
Theorem foreign_keys_hold
    (message : Exn -> string) (issue_message : ZodIssue -> string)
    (is_uuid is_url is_email : string -> bool) (db0 db : DB) :
  foreign_keys db0 ->
  reachable message issue_message is_uuid is_url is_email db0 db ->
  (forall n, In n (networks db) -> has_user db (n_ownerId n) = true)
  /\ (forall m, In m (memberships db) ->
                has_network db (m_networkId m) = true /\ has_user db (m_userId m) = true)
  /\ (forall i, In i (invitations db) ->
                has_network db (i_networkId i) = true
                /\ has_user db (i_invitedUserId i) = true
                /\ has_user db (i_inviterId i) = true)
  /\ (forall a, In a (applications db) ->
                has_network db (a_networkId a) = true
                /\ has_user db (a_applicantId a) = true).
Proof.
  intros H0 Hreach.
  exact (reachable_keeps message issue_message is_uuid is_url is_email
           foreign_keys db0 db foreign_keys_stable H0 Hreach).
Qed.

Lemma sample_foreign_keys : foreign_keys Sample.db0.
Proof.
  unfold foreign_keys. cbn. intuition.
Qed.

Lemma foreign_keys_hold_witness :
  has_network Sample.db4 "n1" = true /\ has_user Sample.db4 "C" = true.
Proof.
  destruct (foreign_keys_hold Sample.msg Sample.issue_msg Sample.well_formed
              Sample.well_formed Sample.well_formed Sample.db0 Sample.db4
              sample_foreign_keys sample_reachable) as [_ [Hm _]].
  apply (Hm (new_membership (Sample.at_ "m3") "n1" "C" "member" "active")).
  right. left. reflexivity.
Defined.

(** *** Accounts *)

Lemma accounts_stable (l : list (string * string * string * option string * Z)) :
  stable (fun _ => True) (fun db => map account (users db) = l).
Proof.
  constructor; intros; open_writes; try exact Hdb.
  cbn [with_users users]. rewrite map_map. rewrite <- Hdb. apply map_ext.
  intros x. destruct (u_id x =? id); reflexivity.
Qed.

(** X4.  No run of the routes adds, removes or reorders a user, or changes
    a user's id, email, password hash, display name or creation date: the
    only write to the user table is the profile update, and it writes the
    profile columns alone. *)
Theorem accounts_never_change
    (message : Exn -> string) (issue_message : ZodIssue -> string)
    (is_uuid is_url is_email : string -> bool) (db0 db : DB) :
  reachable message issue_message is_uuid is_url is_email db0 db ->
  map account (users db) = map account (users db0).
Proof.
  intros Hreach.
  exact (reachable_keeps message issue_message is_uuid is_url is_email
           (fun db => map account (users db) = map account (users db0)) db0 db
           (accounts_stable (map account (users db0))) eq_refl Hreach).
Qed.

Lemma accounts_never_change_witness :
  map account (users Sample.db4) = map account (users Sample.db0).
Proof.
  exact (accounts_never_change Sample.msg Sample.issue_msg Sample.well_formed
           Sample.well_formed Sample.well_formed Sample.db0 Sample.db4 sample_reachable).
Defined.

(** ** What the schemas accept *)

Lemma z_string_bounds_inv (lo hi : nat) (p : list PathSeg) (v : value) (s : string) :
  z_string [Min lo; Max hi] p v = inr s -> v = VStr s /\ lo <= String.length s <= hi.
Proof.
  destruct v; cbn [z_string flat_map str_issue]; try discriminate.
  destruct (Nat.ltb_spec (String.length s0) lo); cbn [app]; [discriminate|].
  destruct (Nat.ltb_spec hi (String.length s0)); cbn [app]; [discriminate|].
  intros Heq. injection Heq as <-. split; [reflexivity|lia].
Qed.

Lemma z_string_max_inv (hi : nat) (p : list PathSeg) (v : value) (s : string) :
  z_string [Max hi] p v = inr s -> v = VStr s /\ String.length s <= hi.
Proof.
  destruct v; cbn [z_string flat_map str_issue]; try discriminate.
  destruct (Nat.ltb_spec hi (String.length s0)); cbn [app]; [discriminate|].
  intros Heq. injection Heq as <-. split; [reflexivity|lia].
Qed.

Lemma z_string_format_inv (ok : string -> bool) (p : list PathSeg) (v : value) (s : string) :
  z_string [Format ok] p v = inr s -> v = VStr s /\ ok s = true.
Proof.
  destruct v; cbn [z_string flat_map str_issue]; try discriminate.
  destruct (ok s0) eqn:E; cbn [app]; [|discriminate].
  intros Heq. injection Heq as <-. split; [reflexivity|exact E].
Qed.

Lemma z_string_any_inv (p : list PathSeg) (v : value) (s : string) :
  z_string [] p v = inr s -> v = VStr s.
Proof.
  destruct v; cbn [z_string flat_map]; try discriminate.
  intros Heq. injection Heq as <-. reflexivity.
Qed.

Lemma z_string_any_issues (p : list PathSeg) (v : value) (l : list ZodIssue) :
  z_string [] p v = inl l -> l <> [].
Proof.
  destruct v; cbn [z_string flat_map]; try discriminate;
    intros H; injection H as <-; discriminate.
Qed.

Lemma z_optional_inv {A} (inner : list PathSeg -> value -> ZRes A) (p : list PathSeg)
    (v : option value) (r : option A) :
  z_optional inner p v = inr r ->
  match v, r with
  | None, None => True
  | Some x, Some a => inner p x = inr a
  | _, _ => False
  end.
Proof.
  destruct v as [x|]; cbn [z_optional].
  - destruct (inner p x) as [l|a]; [discriminate|]. intros Heq. injection Heq as <-. reflexivity.
  - intros Heq. injection Heq as <-. exact I.
Qed.

Lemma z_elements_inv (p : list PathSeg) (l : list value) (i : nat) (good : list string) :
  z_elements p i l = ([], good) -> l = map VStr good.
Proof.
  revert i good. induction l as [|x l IH]; intros i good; cbn [z_elements].
  - intros Heq. injection Heq as <-. reflexivity.
  - destruct (z_elements p (S i) l) as [bad rest] eqn:E.
    destruct (z_string [] (p ++ [Idx i]) x) as [l'|s] eqn:Ex.
    + intros Heq. injection Heq as Hbad _. apply z_string_any_issues in Ex.
      destruct l'; [congruence|discriminate].
    + intros Heq. injection Heq as -> <-. apply z_string_any_inv in Ex. subst x.
      cbn [map]. f_equal. exact (IH (S i) rest E).
Qed.

Lemma z_array_string_inv (lo hi : nat) (p : list PathSeg) (v : value) (l : list string) :
  z_array_string lo hi p v = inr l -> v = VArr (map VStr l) /\ lo <= length l <= hi.
Proof.
  destruct v; cbn [z_array_string]; try discriminate.
  destruct (z_elements p 0 items) as [bad good] eqn:E.
  destruct (Nat.ltb_spec (length items) lo); cbn [app]; [discriminate|].
  destruct (Nat.ltb_spec hi (length items)); cbn [app]; [discriminate|].
  destruct bad; [|discriminate].
  intros Heq. injection Heq as <-. apply z_elements_inv in E. subst items.
  rewrite length_map in *. split; [reflexivity|lia].
Qed.

Lemma z_optional_string_inv (checks : list StrCheck) (p : list PathSeg)
    (v : option value) (r : option string) (P : string -> Prop) :
  (forall x s, z_string checks p x = inr s -> x = VStr s /\ P s) ->
  z_optional (z_string checks) p v = inr r ->
  v = option_map VStr r /\ forall s, r = Some s -> P s.
Proof.
  intros Hinner H. apply z_optional_inv in H.
  destruct v as [x|], r as [s|]; try contradiction.
  - destruct (Hinner x s H) as [-> Hs]. split; [reflexivity|].
    intros s' Heq. injection Heq as <-. exact Hs.
  - split; [reflexivity|discriminate].
Qed.

Lemma networkSchema_inv (is_url : string -> bool) (v : value) (d : NetworkData) :
  networkSchema is_url v = inr d ->
  exists o,
    v = VObj o
    /\ lookup "name" o = Some (VStr (d_name d))
    /\ lookup "description" o = option_map VStr (d_description d)
    /\ lookup "themes" o = Some (VArr (map VStr (d_themes d)))
    /\ lookup "logoUrl" o = option_map VStr (d_logoUrl d)
    /\ network_data_in_bounds is_url d.
Proof.
  destruct v as [| | | | |items|o]; cbn [networkSchema]; try discriminate.
  destruct (z_required (z_string [Min 1; Max 100]) [Key "name"] (lookup "name" o))
    as [l1|name] eqn:E1; [discriminate|].
  destruct (z_optional (z_string [Max 500]) [Key "description"] (lookup "description" o))
    as [l2|desc] eqn:E2; [discriminate|].
  destruct (z_required (z_array_string 1 10) [Key "themes"] (lookup "themes" o))
    as [l3|themes] eqn:E3; [discriminate|].
  destruct (z_optional (z_string [Format is_url]) [Key "logoUrl"] (lookup "logoUrl" o))
    as [l4|logo] eqn:E4; [discriminate|].
  intros Heq. injection Heq as <-. cbn [d_name d_description d_themes d_logoUrl].
  exists o. unfold z_required in E1, E3.
  destruct (lookup "name" o) as [x1|]; [|discriminate].
  destruct (lookup "themes" o) as [x3|]; [|discriminate].
  apply z_string_bounds_inv in E1. destruct E1 as [-> Hname].
  apply z_array_string_inv in E3. destruct E3 as [-> Hthemes].
  apply (z_optional_string_inv _ _ _ _ (fun s => String.length s <= 500)) in E2;
    [|intros x s; apply z_string_max_inv].
  apply (z_optional_string_inv _ _ _ _ (fun s => is_url s = true)) in E4;
    [|intros x s; apply z_string_format_inv].
  destruct E2 as [Hd Hdlen], E4 as [Hl Hurl].
  unfold network_data_in_bounds. cbn [d_name d_description d_themes d_logoUrl].
  split; [reflexivity|]. split; [reflexivity|]. tauto.
Qed.

(** X5.  [networkSchema] accepts a body exactly when it is an object whose
    [name] is a string of 1 to 100 characters, whose [themes] is an array
    of 1 to 10 strings (empty strings included), whose [description], if
    present, is a string of at most 500 characters and whose [logoUrl], if
    present, is a string in URL format; the data it returns are these four
    fields and nothing else of the body. *)
Theorem networkSchema_accepts_exactly (is_url : string -> bool) (v : value) (d : NetworkData) :
  networkSchema is_url v = inr d
  <-> exists o,
        v = VObj o
        /\ lookup "name" o = Some (VStr (d_name d))
        /\ 1 <= String.length (d_name d) <= 100
        /\ lookup "description" o = option_map VStr (d_description d)
        /\ (forall x, d_description d = Some x -> String.length x <= 500)
        /\ lookup "themes" o = Some (VArr (map VStr (d_themes d)))
        /\ 1 <= length (d_themes d) <= 10
        /\ lookup "logoUrl" o = option_map VStr (d_logoUrl d)
        /\ (forall x, d_logoUrl d = Some x -> is_url x = true).
Proof.
  split.
  - intros H. destruct (networkSchema_inv is_url v d H)
      as [o [-> [Hn [Hd [Ht [Hl [Hname [Hdlen [Hthemes Hurl]]]]]]]]].
    exists o. split; [reflexivity|]. tauto.
  - intros [o [-> [Hn [Hname [Hd [Hdlen [Ht [Hthemes [Hl Hurl]]]]]]]]].
    apply networkSchema_accepts; assumption.
Qed.

Lemma networkSchema_partial_inv (is_url : string -> bool) (v : value) (p : NetworkPatch) :
  networkSchema_partial is_url v = inr p -> network_patch_in_bounds is_url p.
Proof.
  destruct v as [| | | | |items|o]; cbn [networkSchema_partial]; try discriminate.
  destruct (z_optional (z_string [Min 1; Max 100]) [Key "name"] (lookup "name" o))
    as [l1|name] eqn:E1; [discriminate|].
  destruct (z_optional (z_string [Max 500]) [Key "description"] (lookup "description" o))
    as [l2|desc] eqn:E2; [discriminate|].
  destruct (z_optional (z_array_string 1 10) [Key "themes"] (lookup "themes" o))
    as [l3|themes] eqn:E3; [discriminate|].
  destruct (z_optional (z_string [Format is_url]) [Key "logoUrl"] (lookup "logoUrl" o))
    as [l4|logo] eqn:E4; [discriminate|].
  intros Heq. injection Heq as <-.
  unfold network_patch_in_bounds. cbn [np_name np_description np_themes np_logoUrl].
  apply (z_optional_string_inv _ _ _ _ (fun s => 1 <= String.length s <= 100)) in E1;
    [|intros x s; apply z_string_bounds_inv].
  apply (z_optional_string_inv _ _ _ _ (fun s => String.length s <= 500)) in E2;
    [|intros x s; apply z_string_max_inv].
  apply (z_optional_string_inv _ _ _ _ (fun s => is_url s = true)) in E4;
    [|intros x s; apply z_string_format_inv].
  apply z_optional_inv in E3.
  assert (Hthemes : forall x, themes = Some x -> 1 <= length x <= 10).
  { intros x ->. destruct (lookup "themes" o); [|contradiction].
    apply z_array_string_inv in E3. tauto. }
  tauto.
Qed.

Lemma invitationSchema_inv (is_uuid : string -> bool) (v : value) (d : InvitationData) :
  invitationSchema is_uuid v = inr d ->
  is_uuid (iv_userId d) = true /\ message_in_bounds (iv_message d).
Proof.
  destruct v as [| | | | |items|o]; cbn [invitationSchema]; try discriminate.
  destruct (z_required (z_string [Format is_uuid]) [Key "userId"] (lookup "userId" o))
    as [l1|uid] eqn:E1; [discriminate|].
  destruct (z_optional (z_string [Max 500]) [Key "message"] (lookup "message" o))
    as [l2|msg] eqn:E2; [discriminate|].
  intros Heq. injection Heq as <-. cbn [iv_userId iv_message].
  unfold z_required in E1. destruct (lookup "userId" o); [|discriminate].
  apply z_string_format_inv in E1.
  apply (z_optional_string_inv _ _ _ _ (fun s => String.length s <= 500)) in E2;
    [|intros x s; apply z_string_max_inv].
  split; [tauto|]. exact (proj2 E2).
Qed.

Lemma applicationSchema_inv (v : value) (msg : option string) :
  applicationSchema v = inr msg -> message_in_bounds msg.
Proof.
  destruct v as [| | | | |items|o]; cbn [applicationSchema]; try discriminate.
  intros E.
  apply (z_optional_string_inv _ _ _ _ (fun s => String.length s <= 500)) in E;
    [|intros x s; apply z_string_max_inv].
  exact (proj2 E).
Qed.

(** ** Predicates kept given what the handlers write *)

Lemma preserves_bind_parse (I : DB -> Prop) {A B} (schema : value -> ZRes A) (v : value)
    (f : A -> M B) :
  (forall a, schema v = inr a -> preserves I (f a)) ->
  preserves I (bind (parse schema v) f).
Proof.
  intros Hf s Hs. unfold bind, parse.
  destruct (schema v) as [l|a] eqn:E; cbn [throw ret snd]; [exact Hs|].
  exact (Hf a eq_refl s Hs).
Qed.

Ltac walk_checked :=
  repeat match goal with
    | |- preserves _ (ret _) => apply preserves_ret
    | |- preserves _ (throw _) => apply preserves_throw
    | |- preserves _ (read _) => apply preserves_read
    | |- preserves _ (bind (parse _ _) _) =>
        apply preserves_bind_parse; let H := fresh "Hparse" in intros ? H
    | |- preserves _ (bind _ _) => apply preserves_bind; [|intros ?]
    | |- preserves _ (try_catch _ _) => apply preserves_try_catch; [|intros ?]
    | |- preserves _ (match ?x with _ => _ end) => destruct x
    | |- preserves _ (if ?x then _ else _) => destruct x
    | |- preserves _ (let _ := _ in _) => cbv zeta
    end.

Section Checked.

Variable message : Exn -> string.
Variable issue_message : ZodIssue -> string.
Variables is_uuid is_url is_email : string -> bool.
Variable I : DB -> Prop.
Hypothesis HI : checked is_url I.

Lemma route_checked (op : Op) (req : Request) :
  preserves I (route message issue_message is_uuid is_url is_email op req).
Proof.
  destruct op as [g1 g2| | |g|g|g|g| | | ]; cbn [route];
    unfold authMiddleware, createNetwork, updateNetwork, deleteNetwork, inviteUser,
      respondToInvitation, applyToNetwork, respondToApplication, removeMember,
      updateProfile, viewProfile, network_findUnique, networkMembership_findUnique,
      networkInvitation_findUnique, networkApplication_findUnique, user_findUnique;
    walk_checked;
    first
      [ apply (checked_network_create _ _ HI);
        destruct (networkSchema_inv _ _ _ Hparse) as [? [_ [_ [_ [_ [_ Hb]]]]]]; exact Hb
      | apply (checked_network_update _ _ HI);
        exact (networkSchema_partial_inv _ _ _ Hparse)
      | apply (checked_network_delete _ _ HI)
      | apply (checked_membership_create _ _ HI); first [left; reflexivity|right; reflexivity]
      | apply (checked_membership_delete _ _ HI)
      | apply (checked_invitation_create _ _ HI);
        exact (proj2 (invitationSchema_inv _ _ _ Hparse))
      | apply (checked_invitation_update _ _ HI);
        first [exact terminal_accepted|exact terminal_rejected]
      | apply (checked_application_create _ _ HI);
        exact (applicationSchema_inv _ _ Hparse)
      | apply (checked_application_update _ _ HI);
        first [left; reflexivity|right; reflexivity]
      | apply (checked_user_update _ _ HI) ].
Qed.

Lemma reachable_checked (db0 db : DB) :
  I db0 ->
  reachable message issue_message is_uuid is_url is_email db0 db ->
  I db.
Proof.
  intros H0 Hreach. induction Hreach as [|db op req db' _ IH Hin]; [exact H0|].
  unfold after, run in Hin.
  pose proof (route_checked op req (start db)) as H.
  assert (Hstart : Forall I (visible (start db))) by (constructor; [exact IH|constructor]).
  specialize (H Hstart). rewrite Forall_forall in H. exact (H db' Hin).
Qed.

End Checked.

Lemma patch_network_in_bounds (is_url : string -> bool) (p : NetworkPatch) (n : Network) :
  network_patch_in_bounds is_url p ->
  network_in_bounds is_url n ->
  network_in_bounds is_url (patch_network p n).
Proof.
  intros [Hn [Hd [Ht Hl]]] [Bn [Bd [Bt Bl]]].
  unfold network_in_bounds. cbn [patch_network n_name n_description n_themes n_logoUrl].
  destruct p as [name desc themes logo].
  cbn [np_name np_description np_themes np_logoUrl] in *.
  repeat split.
  - destruct name as [x|]; cbn [or_old]; [apply (Hn x eq_refl)|apply Bn].
  - destruct name as [x|]; cbn [or_old]; [apply (Hn x eq_refl)|apply Bn].
  - destruct desc as [x|]; cbn [or_keep]; [|exact Bd].
    intros y Heq. injection Heq as <-. exact (Hd x eq_refl).
  - destruct themes as [x|]; cbn [or_old]; [apply (Ht x eq_refl)|apply Bt].
  - destruct themes as [x|]; cbn [or_old]; [apply (Ht x eq_refl)|apply Bt].
  - destruct logo as [x|]; cbn [or_keep]; [|exact Bl].
    intros y Heq. injection Heq as <-. exact (Hl x eq_refl).
Qed.

Lemma rows_in_domain_checked (is_url : string -> bool) :
  checked is_url (rows_in_domain is_url).
Proof.
  constructor; intros; open_writes; try exact Hdb;
    destruct Hdb as [Hn [Hm [Hi Ha]]]; unfold rows_in_domain.
  - (* network_create *)
    split; [|split; [exact Hm|split; [exact Hi|exact Ha]]].
    cbn [with_networks networks]. intros row Hin.
    apply in_app_or in Hin. destruct Hin as [Hin|[<-|[]]]; [exact (Hn row Hin)|].
    assumption.
  - (* network_update *)
    split; [|split; [exact Hm|split; [exact Hi|exact Ha]]].
    cbn [with_networks networks]. intros row Hin.
    apply in_map_iff in Hin. destruct Hin as [x [<- Hx]].
    destruct (n_id x =? id); [apply patch_network_in_bounds; auto|auto].
  - (* network_delete *)
    cbn [cascade_delete networks memberships invitations applications].
    split; [|split; [|split]]; intros row Hin; apply filter_In in Hin;
      destruct Hin as [Hin _]; auto.
  - (* networkMembership_create *)
    split; [exact Hn|split; [|split; [exact Hi|exact Ha]]].
    cbn [with_memberships memberships]. intros row Hin.
    apply in_app_or in Hin. destruct Hin as [Hin|[<-|[]]]; [exact (Hm row Hin)|].
    split; [reflexivity|assumption].
  - (* networkMembership_delete *)
    split; [exact Hn|split; [|split; [exact Hi|exact Ha]]].
    cbn [with_memberships memberships]. intros row Hin. apply filter_In in Hin.
    exact (Hm row (proj1 Hin)).
  - (* networkInvitation_create *)
    split; [exact Hn|split; [exact Hm|split; [|exact Ha]]].
    cbn [with_invitations invitations]. intros row Hin.
    apply in_app_or in Hin. destruct Hin as [Hin|[<-|[]]]; [exact (Hi row Hin)|].
    split; [left; reflexivity|assumption].
  - (* networkInvitation_update *)
    split; [exact Hn|split; [exact Hm|split; [|exact Ha]]].
    cbn [with_invitations invitations]. intros row Hin.
    apply in_map_iff in Hin. destruct Hin as [x [<- Hx]].
    destruct (i_id x =? id); [|exact (Hi x Hx)].
    split; [|exact (proj2 (Hi x Hx))].
    cbn [set_invitation_status i_status]. unfold terminal in *. tauto.
  - (* networkApplication_create *)
    split; [exact Hn|split; [exact Hm|split; [exact Hi|]]].
    cbn [with_applications applications]. intros row Hin.
    apply in_app_or in Hin. destruct Hin as [Hin|[<-|[]]]; [exact (Ha row Hin)|].
    split; [left; reflexivity|assumption].
  - (* networkApplication_update *)
    split; [exact Hn|split; [exact Hm|split; [exact Hi|]]].
    cbn [with_applications applications]. intros row Hin.
    apply in_map_iff in Hin. destruct Hin as [x [<- Hx]].
    destruct (a_id x =? id); [|exact (Ha x Hx)].
    split; [|exact (proj2 (Ha x Hx))].
    cbn [set_application_status a_status]. tauto.
Qed.

(** X6.  Along every run of the routes every membership has status
    active and role owner or member, every invitation has status pending,
    accepted or rejected, and every application has status pending,
    approved or rejected: the handlers write no other value to these text
    columns. *)
Theorem roles_and_statuses_stay_in_domain
    (message : Exn -> string) (issue_message : ZodIssue -> string)
    (is_uuid is_url is_email : string -> bool) (db0 db : DB) :
  rows_in_domain is_url db0 ->
  reachable message issue_message is_uuid is_url is_email db0 db ->
  (forall m, In m (memberships db) ->
             m_status m = "active" /\ (m_role m = "owner" \/ m_role m = "member"))
  /\ (forall i, In i (invitations db) ->
                i_status i = "pending" \/ i_status i = "accepted" \/ i_status i = "rejected")
  /\ (forall a, In a (applications db) ->
                a_status a = "pending" \/ a_status a = "approved" \/ a_status a = "rejected").
Proof.
  intros H0 Hreach.
  destruct (reachable_checked message issue_message is_uuid is_url is_email
              (rows_in_domain is_url) (rows_in_domain_checked is_url) db0 db H0 Hreach)
    as [_ [Hm [Hi Ha]]].
  split; [exact Hm|]. split; [intros i Hin; exact (proj1 (Hi i Hin))|].
  intros a Hin. exact (proj1 (Ha a Hin)).
Qed.

Lemma sample_rows_in_domain : rows_in_domain Sample.well_formed Sample.db0.
Proof.
  unfold rows_in_domain. cbn. intuition.
Qed.

Lemma roles_and_statuses_stay_in_domain_witness :
  m_status (new_membership (Sample.at_ "m3") "n1" "C" "member" "active") = "active"
  /\ (m_role (new_membership (Sample.at_ "m3") "n1" "C" "member" "active") = "owner"
      \/ m_role (new_membership (Sample.at_ "m3") "n1" "C" "member" "active") = "member").
Proof.
  destruct (roles_and_statuses_stay_in_domain Sample.msg Sample.issue_msg
              Sample.well_formed Sample.well_formed Sample.well_formed
              Sample.db0 Sample.db4 sample_rows_in_domain sample_reachable) as [Hm _].
  apply Hm. right. left. reflexivity.
Defined.

(** X7.  Along every run of the routes every stored network stays within
    the bounds of [networkSchema] (name of 1 to 100 characters, 1 to 10
    themes, description of at most 500 characters, logo in URL format) and
    every stored invitation or application message has at most 500
    characters: creation and partial update both go through the schema. *)
Theorem stored_rows_stay_in_bounds
    (message : Exn -> string) (issue_message : ZodIssue -> string)
    (is_uuid is_url is_email : string -> bool) (db0 db : DB) :
  rows_in_domain is_url db0 ->
  reachable message issue_message is_uuid is_url is_email db0 db ->
  (forall n, In n (networks db) ->
             1 <= String.length (n_name n) <= 100
             /\ (forall x, n_description n = Some x -> String.length x <= 500)
             /\ 1 <= length (n_themes n) <= 10
             /\ (forall x, n_logoUrl n = Some x -> is_url x = true))
  /\ (forall i x, In i (invitations db) -> i_message i = Some x -> String.length x <= 500)
  /\ (forall a x, In a (applications db) -> a_message a = Some x -> String.length x <= 500).
Proof.
  intros H0 Hreach.
  destruct (reachable_checked message issue_message is_uuid is_url is_email
              (rows_in_domain is_url) (rows_in_domain_checked is_url) db0 db H0 Hreach)
    as [Hn [_ [Hi Ha]]].
  split; [exact Hn|]. split.
  - intros i x Hin. exact (proj2 (Hi i Hin) x).
  - intros a x Hin. exact (proj2 (Ha a Hin) x).
Qed.

Lemma stored_rows_stay_in_bounds_witness :
  1 <= String.length "Tech Reviewers" <= 100 /\ 1 <= length ["tech"] <= 10.
Proof.
  destruct (stored_rows_stay_in_bounds Sample.msg Sample.issue_msg
              Sample.well_formed Sample.well_formed Sample.well_formed
              Sample.db0 Sample.db4 sample_rows_in_domain sample_reachable) as [Hn _].
  destruct (Hn (new_network (Sample.at_ "n1")
                  {| d_name := "Tech Reviewers"; d_description := None;
                     d_themes := ["tech"]; d_logoUrl := None |} "A"))
    as [Hname [_ [Hthemes _]]].
  - left. reflexivity.
  - split; [exact Hname|exact Hthemes].
Defined.

(** ** Who may do what *)

(** X8.  The routes that act on a network look it up first: when it does
    not exist they answer 404, and when the caller is not its owner they
    answer 403, in both cases before the body is validated and without
    writing anything.  For the application route the [action] is checked
    before the network. *)
Theorem owner_only_routes
    (message : Exn -> string) (is_uuid is_url : string -> bool)
    (g : Gen) (caller : string) (req : Request) (db : DB) :
  match find (fun n => n_id n =? params req "id") (networks db) with
  | None =>
      run (updateNetwork message is_url caller req) db
      = (Ok (json 404 (error "Network not found")), start db)
      /\ run (deleteNetwork caller req) db
         = (Ok (json 404 (error "Network not found")), start db)
      /\ run (inviteUser message is_uuid g caller req) db
         = (Ok (json 404 (error "Network not found")), start db)
  | Some net =>
      n_ownerId net <> caller ->
      run (updateNetwork message is_url caller req) db
      = (Ok (json 403 (error "Not authorized")), start db)
      /\ run (deleteNetwork caller req) db
         = (Ok (json 403 (error "Not authorized")), start db)
      /\ run (inviteUser message is_uuid g caller req) db
         = (Ok (json 403 (error "Only owner can invite")), start db)
  end
  /\ (if includes ["approve"; "reject"] (field "action" (body req))
      then
        match find (fun n => n_id n =? params req "networkId") (networks db) with
        | None =>
            run (respondToApplication g caller req) db
            = (Ok (json 404 (error "Network not found")), start db)
        | Some net =>
            n_ownerId net <> caller ->
            run (respondToApplication g caller req) db
            = (Ok (json 403 (error "Not authorized")), start db)
        end
      else
        run (respondToApplication g caller req) db
        = (Ok (json 400 (error "Invalid action")), start db)).
Proof.
  split.
  - unfold updateNetwork, deleteNetwork, inviteUser. unfold_handler.
    destruct (find (fun n => n_id n =? params req "id") (networks db)) as [net|];
      [|repeat split].
    intros Hother. apply String.eqb_neq in Hother. rewrite Hother. repeat split.
  - unfold respondToApplication. unfold_handler.
    destruct (includes ["approve"; "reject"] (field "action" (body req)));
      cbn [negb cur]; [|reflexivity].
    destruct (find (fun n => n_id n =? params req "networkId") (networks db)) as [net|];
      [|reflexivity].
    intros Hother. apply String.eqb_neq in Hother. rewrite Hother. reflexivity.
Qed.

(** X9.  An invitation can be answered by its invited user alone.  The
    handler refuses an [action] other than accept or reject with 400, an
    unknown invitation with 404 and any other caller, the network's owner
    and the inviter included, with 403, in this order and without writing
    anything. *)
Theorem invitation_answered_by_invitee_only
    (g : Gen) (caller : string) (req : Request) (db : DB) :
  if includes ["accept"; "reject"] (field "action" (body req))
  then
    match find (fun i => i_id i =? params req "id") (invitations db) with
    | None =>
        run (respondToInvitation g caller req) db
        = (Ok (json 404 (error "Invitation not found")), start db)
    | Some inv =>
        i_invitedUserId inv <> caller ->
        run (respondToInvitation g caller req) db
        = (Ok (json 403 (error "Not authorized")), start db)
    end
  else
    run (respondToInvitation g caller req) db
    = (Ok (json 400 (error "Invalid action")), start db).
Proof.
  unfold respondToInvitation. unfold_handler.
  destruct (includes ["accept"; "reject"] (field "action" (body req)));
    cbn [negb cur]; [|reflexivity].
  destruct (find (fun i => i_id i =? params req "id") (invitations db)) as [inv|];
    [|reflexivity].
  intros Hother. apply String.eqb_neq in Hother. rewrite Hother. reflexivity.
Qed.

(** X10.  Rejecting an invitation, whatever its status, answers 200 and
    writes one thing: the status of that invitation becomes rejected.  No
    membership is added or removed, so a user who accepted and then rejects
    stays a member. *)
Theorem reject_invitation_only_sets_status
    (g : Gen) (req : Request) (db : DB) (inv : NetworkInvitation) :
  field "action" (body req) = Some (VStr "reject") ->
  find (fun i => i_id i =? params req "id") (invitations db) = Some inv ->
  exists db',
    run (respondToInvitation g (i_invitedUserId inv) req) db
    = (Ok (json 200 ok_true), {| cur := db'; past := [db] |})
    /\ find (fun i => i_id i =? params req "id") (invitations db')
       = Some (set_invitation_status "rejected" inv)
    /\ (forall i, In i (invitations db) -> i_id i <> params req "id" -> In i (invitations db'))
    /\ with_invitations db' (invitations db) = db.
Proof.
  intros Haction Hfind.
  exists (with_invitations db
            (map (fun x => if i_id x =? params req "id"
                           then set_invitation_status "rejected" x else x)
                 (invitations db))).
  split; [|split; [|split]].
  - unfold respondToInvitation, networkInvitation_update. rewrite Haction.
    unfold_handler. reduce_run. cbn [String.eqb Ascii.eqb Bool.eqb]. reduce_run.
    rewrite Hfind, eqb_refl_false. reduce_run. rewrite Hfind. reflexivity.
  - cbn [with_invitations invitations]. rewrite find_map_invitation, Hfind. reflexivity.
  - intros i Hin Hneq. cbn [with_invitations invitations]. apply in_map_iff.
    exists i. apply String.eqb_neq in Hneq. rewrite Hneq. split; [reflexivity|exact Hin].
  - destruct db; reflexivity.
Qed.

(** In the sample C has accepted A's invitation to n1 and is a member;
    C then rejects it. *)
Lemma reject_invitation_only_sets_status_witness :
  exists db',
    run (respondToInvitation (Sample.at_ "m9") "C"
           (Sample.request "C" [("id", "i1")] (Sample.action "reject"))) Sample.db4
    = (Ok (json 200 ok_true), {| cur := db'; past := [Sample.db4] |})
    /\ find (fun i => i_id i =? "i1") (invitations db')
       = Some (set_invitation_status "rejected"
                 (new_invitation (Sample.at_ "i1") "n1" "C" "A" None))
    /\ (forall i, In i (invitations Sample.db4) -> i_id i <> "i1" -> In i (invitations db'))
    /\ with_invitations db' (invitations Sample.db4) = Sample.db4.
Proof.
  apply (reject_invitation_only_sets_status (Sample.at_ "m9")
           (Sample.request "C" [("id", "i1")] (Sample.action "reject")) Sample.db4
           (set_invitation_status "accepted"
              (new_invitation (Sample.at_ "i1") "n1" "C" "A" None)));
    reflexivity.
Defined.

(** X11.  When the owner of the path's network rejects an application,
    whatever its status and whatever network it was made to, the answer is
    200 and the one thing written is that application's status, which
    becomes rejected: a membership created by an earlier approval stays. *)
Theorem reject_application_only_sets_status
    (g : Gen) (req : Request) (db : DB) (net : Network) (app : NetworkApplication) :
  field "action" (body req) = Some (VStr "reject") ->
  find (fun n => n_id n =? params req "networkId") (networks db) = Some net ->
  find (fun a => a_id a =? params req "appId") (applications db) = Some app ->
  exists db',
    run (respondToApplication g (n_ownerId net) req) db
    = (Ok (json 200 ok_true), {| cur := db'; past := [db] |})
    /\ find (fun a => a_id a =? params req "appId") (applications db')
       = Some (set_application_status "rejected" app)
    /\ (forall a, In a (applications db) -> a_id a <> params req "appId" ->
                  In a (applications db'))
    /\ with_applications db' (applications db) = db.
Proof.
  intros Haction Hnet Happ.
  exists (with_applications db
            (map (fun x => if a_id x =? params req "appId"
                           then set_application_status "rejected" x else x)
                 (applications db))).
  split; [|split; [|split]].
  - unfold respondToApplication, networkApplication_update. rewrite Haction.
    unfold_handler. reduce_run. cbn [String.eqb Ascii.eqb Bool.eqb]. reduce_run.
    rewrite Hnet, eqb_refl_false. reduce_run. rewrite Happ. reduce_run.
    rewrite Happ. reflexivity.
  - cbn [with_applications applications]. rewrite find_map_application, Happ. reflexivity.
  - intros a Hin Hneq. cbn [with_applications applications]. apply in_map_iff.
    exists a. apply String.eqb_neq in Hneq. rewrite Hneq. split; [reflexivity|exact Hin].
  - destruct db; reflexivity.
Qed.

(** In the sample A, owner of n1, rejects D's application to n2 through
    n1's path. *)
Lemma reject_application_only_sets_status_witness :
  exists db',
    run (respondToApplication (Sample.at_ "m9") "A"
           (Sample.request "A" [("networkId", "n1"); ("appId", "a2")]
              (Sample.action "reject"))) Sample.db6
    = (Ok (json 200 ok_true), {| cur := db'; past := [Sample.db6] |})
    /\ find (fun a => a_id a =? "a2") (applications db')
       = Some (set_application_status "rejected"
                 (new_application (Sample.at_ "a2") "n2" "D" None))
    /\ (forall a, In a (applications Sample.db6) -> a_id a <> "a2" ->
                  In a (applications db'))
    /\ with_applications db' (applications Sample.db6) = Sample.db6.
Proof.
  apply (reject_application_only_sets_status (Sample.at_ "m9")
           (Sample.request "A" [("networkId", "n1"); ("appId", "a2")]
              (Sample.action "reject")) Sample.db6
           (new_network (Sample.at_ "n1")
              {| d_name := "Tech Reviewers"; d_description := None;
                 d_themes := ["tech"]; d_logoUrl := None |} "A")
           (new_application (Sample.at_ "a2") "n2" "D" None));
    reflexivity.
Defined.

(** ** Applying to a network *)



(** ** From invitation or application to membership *)







(** ** Updating a network *)





(** ** What a request can write *)

Ltac frame_route :=
  unfold authMiddleware, createNetwork, updateNetwork, deleteNetwork, inviteUser,
    respondToInvitation, applyToNetwork, respondToApplication, removeMember,
    updateProfile, viewProfile;
  unfold network_create, network_update, network_delete, networkMembership_create,
    networkMembership_delete, networkInvitation_create, networkInvitation_update,
    networkApplication_create, networkApplication_update, user_update,
    network_findUnique, networkMembership_findUnique, networkInvitation_findUnique,
    networkApplication_findUnique, user_findUnique;
  walk;
  try (apply preserves_modify; intros ? ?);
  try (apply preserves_guarded_insert; intros ? ? ?);
  try assumption.

Section Footprints.

Variable message : Exn -> string.
Variable issue_message : ZodIssue -> string.
Variables is_uuid is_url is_email : string -> bool.

Lemma footprint_keeps (I : DB -> Prop) (op : Op) (req : Request) (db db' : DB) :
  preserves I (route message issue_message is_uuid is_url is_email op req) ->
  I db ->
  In db' (after message issue_message is_uuid is_url is_email op req db) ->
  I db'.
Proof.
  intros Hpres Hdb Hin. unfold after, run in Hin.
  assert (Hstart : Forall I (visible (start db))) by (constructor; [exact Hdb|constructor]).
  specialize (Hpres (start db) Hstart). rewrite Forall_forall in Hpres. exact (Hpres db' Hin).
Qed.

(** X16.  Each route writes to its own tables only.  In every state a
    request leaves visible: creating a network leaves users, invitations
    and applications as they were; updating one leaves everything but the
    network table; deleting one leaves the users; inviting writes
    invitations only and applying applications only; answering an
    invitation leaves users, networks and applications, answering an
    application users, networks and invitations; removing a member writes
    memberships only and updating a profile users only; viewing a profile
    writes nothing. *)
Theorem route_footprints (op : Op) (req : Request) (db db' : DB) :
  In db' (after message issue_message is_uuid is_url is_email op req db) ->
  match op with
  | CreateNetwork _ _ =>
      users db' = users db /\ invitations db' = invitations db
      /\ applications db' = applications db
  | UpdateNetwork =>
      users db' = users db /\ memberships db' = memberships db
      /\ invitations db' = invitations db /\ applications db' = applications db
  | DeleteNetwork => users db' = users db
  | InviteUser _ =>
      users db' = users db /\ networks db' = networks db
      /\ memberships db' = memberships db /\ applications db' = applications db
  | RespondToInvitation _ =>
      users db' = users db /\ networks db' = networks db
      /\ applications db' = applications db
  | ApplyToNetwork _ =>
      users db' = users db /\ networks db' = networks db
      /\ memberships db' = memberships db /\ invitations db' = invitations db
  | RespondToApplication _ =>
      users db' = users db /\ networks db' = networks db
      /\ invitations db' = invitations db
  | RemoveMember =>
      users db' = users db /\ networks db' = networks db
      /\ invitations db' = invitations db /\ applications db' = applications db
  | UpdateProfile =>
      networks db' = networks db /\ memberships db' = memberships db
      /\ invitations db' = invitations db /\ applications db' = applications db
  | ViewProfile => db' = db
  end.
Proof.
  intros Hin.
  destruct op as [g1 g2| | |g|g|g|g| | | ]; cbv iota beta; repeat split;
    match goal with
    | |- ?f db' = ?f db =>
        eapply (footprint_keeps (fun x => f x = f db) _ req db db'); [|reflexivity|exact Hin]
    | |- db' = db =>
        eapply (footprint_keeps (fun x => x = db) _ req db db'); [|reflexivity|exact Hin]
    end;
    cbn [route]; frame_route.
Qed.

End Footprints.

Lemma route_footprints_witness :
  users Sample.db4 = users Sample.db3
  /\ networks Sample.db4 = networks Sample.db3
  /\ applications Sample.db4 = applications Sample.db3.
Proof.
  apply (route_footprints Sample.msg Sample.issue_msg Sample.well_formed
           Sample.well_formed Sample.well_formed (RespondToInvitation (Sample.at_ "m3"))
           (Sample.request "C" [("id", "i1")] (Sample.action "accept"))
           Sample.db3 Sample.db4).
  left. reflexivity.
Defined.

(** X17.  Whatever the body holds, creating a network stores at most one
    network row and at most one membership row, and both are built from
    the caller's identity and the four fields the schema returned: the
    owner of the new network is the caller, its identifier and creation
    date are the generated ones, and its membership is the caller's with
    role owner.  A body key such as [ownerId] or [id] has no effect. *)
Theorem createNetwork_stores_accepted_data_only
    (message : Exn -> string) (issue_message : ZodIssue -> string)
    (is_url : string -> bool) (g1 g2 : Gen) (caller : string) (req : Request) (db : DB) :
  exists db',
    cur (snd (run (createNetwork message issue_message is_url g1 g2 caller req) db)) = db'
    /\ (networks db' = networks db
        \/ exists d,
             networkSchema is_url (body req) = inr d
             /\ networks db' = networks db ++ [new_network g1 d caller])
    /\ (memberships db' = memberships db
        \/ memberships db'
           = memberships db ++ [new_membership g2 (g_id g1) caller "owner" "active"])
    /\ (memberships db' = memberships db \/ networks db' <> networks db).
Proof.
  eexists. split; [reflexivity|].
  unfold createNetwork, network_create, networkMembership_create. unfold_handler.
  destruct (networkSchema is_url (body req)) as [l|d] eqn:Hparse; reduce_run.
  - repeat split; left; reflexivity.
  - destruct (network_data_storable d); reduce_run;
      [|repeat split; left; reflexivity].
    destruct (insert_check (has_network db (g_id g1)) false []
                [("ownerId", has_user db caller)]); reduce_run.
    + repeat split; left; reflexivity.
    + cbn [new_network n_id].
      match goal with
      | |- context [match insert_check ?a ?b ?c ?d with _ => _ end] =>
          destruct (insert_check a b c d)
      end; cbn [cur snd with_networks with_memberships networks memberships].
      * split; [right; exists d; split; reflexivity|]. split; [left; reflexivity|].
        left. reflexivity.
      * split; [right; exists d; split; reflexivity|]. split; [right; reflexivity|].
        right. intros Heq. apply (f_equal (@length Network)) in Heq.
        rewrite length_app in Heq. cbn in Heq. lia.
Qed.

(** ** Requests without a session *)



(** ** The owner role *)

Lemma owner_role_after_update (id : string) (p : NetworkPatch) (db : DB) :
  owner_role_held_by_owner db ->
  owner_role_held_by_owner
    (with_networks db
       (map (fun x => if n_id x =? id then patch_network p x else x) (networks db))).
Proof.
  intros H row Hin Hrole. cbn [with_networks memberships networks] in *.
  destruct (H row Hin Hrole) as [n [Hn [Hid Hown]]].
  exists (if n_id n =? id then patch_network p n else n). split.
  - apply in_map_iff. exists n. split; [reflexivity|exact Hn].
  - destruct (n_id n =? id); cbn [patch_network n_id n_ownerId]; split; assumption.
Qed.

Lemma owner_role_after_delete (id : string) (db : DB) :
  owner_role_held_by_owner db -> owner_role_held_by_owner (cascade_delete id db).
Proof.
  intros H row Hin Hrole. cbn [cascade_delete memberships networks] in *.
  apply filter_In in Hin. destruct Hin as [Hin Hkeep].
  destruct (H row Hin Hrole) as [n [Hn [Hid Hown]]].
  exists n. split; [|split; assumption].
  apply filter_In. split; [exact Hn|]. rewrite Hid. exact Hkeep.
Qed.

Lemma owner_role_after_member (g : Gen) (networkId userId : string) (db : DB) :
  owner_role_held_by_owner db ->
  owner_role_held_by_owner
    (with_memberships db
       (memberships db ++ [new_membership g networkId userId "member" "active"])).
Proof.
  intros H row Hin Hrole. cbn [with_memberships memberships networks] in *.
  apply in_app_or in Hin. destruct Hin as [Hin|[<-|[]]]; [exact (H row Hin Hrole)|].
  cbn [new_membership m_role] in Hrole. discriminate.
Qed.

Lemma owner_role_after_removal (keep : NetworkMembership -> bool) (db : DB) :
  owner_role_held_by_owner db ->
  owner_role_held_by_owner (with_memberships db (filter keep (memberships db))).
Proof.
  intros H row Hin Hrole. cbn [with_memberships memberships networks] in *.
  apply filter_In in Hin. exact (H row (proj1 Hin) Hrole).
Qed.

Lemma owner_role_after_network (n : Network) (db : DB) :
  owner_role_held_by_owner db ->
  owner_role_held_by_owner (with_networks db (networks db ++ [n])).
Proof.
  intros H row Hin Hrole. cbn [with_networks memberships networks] in *.
  destruct (H row Hin Hrole) as [x [Hx Hrest]].
  exists x. split; [apply in_or_app; left; exact Hx|exact Hrest].
Qed.

Lemma owner_role_after_owner (g : Gen) (n : Network) (db : DB) :
  owner_role_held_by_owner db ->
  In n (networks db) ->
  owner_role_held_by_owner
    (with_memberships db
       (memberships db ++ [new_membership g (n_id n) (n_ownerId n) "owner" "active"])).
Proof.
  intros H Hn row Hin Hrole. cbn [with_memberships memberships networks] in *.
  apply in_app_or in Hin. destruct Hin as [Hin|[<-|[]]]; [exact (H row Hin Hrole)|].
  exists n. split; [exact Hn|]. split; reflexivity.
Qed.

Section OwnerRole.

Variable message : Exn -> string.
Variable issue_message : ZodIssue -> string.
Variables is_uuid is_url is_email : string -> bool.

Lemma owner_role_createNetwork (g1 g2 : Gen) (caller : string) (req : Request) (db : DB) :
  owner_role_held_by_owner db ->
  Forall owner_role_held_by_owner
    (visible (snd (run (createNetwork message issue_message is_url g1 g2 caller req) db))).
Proof.
  intros H.
  unfold createNetwork, network_create, networkMembership_create, visible. unfold_handler.
  destruct (networkSchema is_url (body req)) as [l|d]; reduce_run;
    [constructor; [exact H|constructor]|].
  destruct (network_data_storable d); reduce_run;
    [|constructor; [exact H|constructor]].
  destruct (insert_check (has_network db (g_id g1)) false []
              [("ownerId", has_user db caller)]); reduce_run;
    [constructor; [exact H|constructor]|].
  pose proof (owner_role_after_network (new_network g1 d caller) db H) as H1.
  match goal with
  | |- context [match insert_check ?a ?b ?c ?d with _ => _ end] =>
      destruct (insert_check a b c d)
  end; cbn [cur past snd].
  - constructor; [exact H1|]. constructor; [exact H|constructor].
  - constructor; [|constructor; [exact H1|constructor; [exact H|constructor]]].
    apply (owner_role_after_owner g2 (new_network g1 d caller)
             (with_networks db (networks db ++ [new_network g1 d caller])) H1).
    cbn [with_networks networks]. apply in_or_app. right. left. reflexivity.
Qed.

Lemma owner_role_route (op : Op) (req : Request) (db db' : DB) :
  owner_role_held_by_owner db ->
  In db' (after message issue_message is_uuid is_url is_email op req db) ->
  owner_role_held_by_owner db'.
Proof.
  intros H Hin.
  destruct op as [g1 g2| | |g|g|g|g| | | ].
  1: { unfold after in Hin. cbn [route] in Hin. unfold authMiddleware in Hin.
       destruct (session req) as [| |caller];
         try (destruct Hin as [<-|[]]; exact H).
       pose proof (owner_role_createNetwork g1 g2 caller req db H) as Hall.
       rewrite Forall_forall in Hall. exact (Hall db' Hin). }
  all: eapply (footprint_keeps message issue_message is_uuid is_url is_email
                 owner_role_held_by_owner _ req db db'); [|exact H|exact Hin];
    cbn [route]; frame_route;
    first [ apply owner_role_after_update; assumption
          | apply owner_role_after_delete; assumption
          | apply owner_role_after_member; assumption
          | apply owner_role_after_removal; assumption ].
Qed.

(** X19.  The owner role is never granted to anyone but a network's
    owner.  Along every run of the routes, the states between two writes
    of one request included, a membership with role [owner] names a
    network whose [ownerId] is the member: invitations and applications
    add members only, the one owner membership is written for the caller
    who has just created the network, and no route changes a role or an
    owner. *)
Theorem owner_role_stays_with_owner (db0 db : DB) :
  owner_role_held_by_owner db0 ->
  reachable message issue_message is_uuid is_url is_email db0 db ->
  owner_role_held_by_owner db.
Proof.
  intros H0 Hreach. induction Hreach as [|db op req db' _ IH Hin]; [exact H0|].
  exact (owner_role_route op req db db' IH Hin).
Qed.

End OwnerRole.

Lemma sample_owner_role : owner_role_held_by_owner Sample.db0.
Proof.
  intros row Hin. vm_compute in Hin. destruct Hin.
Qed.

Lemma owner_role_stays_with_owner_witness :
  exists n, In n (networks Sample.db4) /\ n_id n = "n1" /\ n_ownerId n = "A".
Proof.
  apply (owner_role_stays_with_owner Sample.msg Sample.issue_msg Sample.well_formed
           Sample.well_formed Sample.well_formed Sample.db0 Sample.db4
           sample_owner_role sample_reachable
           (new_membership (Sample.at_ "m1") "n1" "A" "owner" "active")).
  - left. reflexivity.
  - reflexivity.
Defined.

(** ** Removal and the old invitation *)

Lemma existsb_filtered_out {A} (f : A -> bool) (l : list A) :
  existsb f (filter (fun x => negb (f x)) l) = false.
Proof.
  induction l as [|a l IH]; cbn [filter existsb]; [reflexivity|].
  destruct (f a) eqn:E; cbn [negb existsb]; [exact IH|]. rewrite E, IH. reflexivity.
Qed.

Lemma existsb_filter_false {A} (f keep : A -> bool) (l : list A) :
  existsb f l = false -> existsb f (filter keep l) = false.
Proof.
  induction l as [|a l IH]; cbn [filter existsb]; [reflexivity|].
  intros H. apply orb_false_iff in H. destruct H as [Ha Hl].
  destruct (keep a); cbn [existsb]; [rewrite Ha|]; exact (IH Hl).
Qed.

(** X20.  Removal does not close the door.  When the owner removes a
    member to whom an invitation to the network is addressed, whatever the
    status of that invitation, and the removed user then answers it with
    accept, both requests answer 200: the user is a member again, by their
    own request alone, and the invitation is stored as accepted. *)
Theorem removed_member_can_rejoin
    (g : Gen) (caller : string) (req req' : Request) (db : DB)
    (net : Network) (m : NetworkMembership) (inv : NetworkInvitation) :
  find (fun n => n_id n =? params req "id") (networks db) = Some net ->
  n_ownerId net = caller ->
  params req "userId" <> caller ->
  find (same_member (params req "id") (params req "userId")) (memberships db) = Some m ->
  find (fun i => i_id i =? params req' "id") (invitations db) = Some inv ->
  i_networkId inv = params req "id" ->
  i_invitedUserId inv = params req "userId" ->
  field "action" (body req') = Some (VStr "accept") ->
  existsb (fun x => m_id x =? g_id g) (memberships db) = false ->
  has_user db (params req "userId") = true ->
  exists db1 db2 mid,
    run (removeMember caller req) db
    = (Ok (json 200 ok_true), {| cur := db1; past := [db] |})
    /\ existsb (same_member (params req "id") (params req "userId")) (memberships db1) = false
    /\ run (respondToInvitation g (params req "userId") req') db1
       = (Ok (json 200 ok_true), {| cur := db2; past := [mid; db1] |})
    /\ memberships db2
       = memberships db1
         ++ [new_membership g (params req "id") (params req "userId") "member" "active"]
    /\ In (set_invitation_status "accepted" inv) (invitations db2).
Proof.
  intros Hnet Howner Hnotself Hm Hinv Hinet Hiuser Haction Hfresh Huser.
  apply String.eqb_neq in Hnotself.
  assert (Hhas : has_network db (params req "id") = true)
    by exact (find_some_exists _ _ _ Hnet).
  assert (Hremove :
            run (removeMember caller req) db
            = (Ok (json 200 ok_true),
               {| cur := with_memberships db
                           (filter (fun x => negb (same_member (params req "id")
                                                     (params req "userId") x))
                                   (memberships db));
                  past := [db] |})).
  { unfold removeMember, networkMembership_delete. unfold_handler.
    rewrite Hnet, Howner, eqb_refl_false, Hnotself. reduce_run.
    rewrite Hm. reflexivity. }
  remember (with_memberships db
              (filter (fun x => negb (same_member (params req "id") (params req "userId") x))
                      (memberships db))) as db1 eqn:Hdb1.
  assert (Hgone : existsb (same_member (params req "id") (params req "userId"))
                          (memberships db1) = false)
    by (subst db1; apply existsb_filtered_out).
  assert (Hfresh1 : existsb (fun x => m_id x =? g_id g) (memberships db1) = false)
    by (subst db1; apply existsb_filter_false; exact Hfresh).
  assert (Hfound : find (fun i => i_id i =? params req' "id") (invitations db1) = Some inv)
    by (subst db1; exact Hinv).
  assert (Hn1 : has_network db1 (params req "id") = true) by (subst db1; exact Hhas).
  assert (Hu1 : has_user db1 (params req "userId") = true) by (subst db1; exact Huser).
  exists db1,
    (with_invitations
       (with_memberships db1
          (memberships db1
           ++ [new_membership g (params req "id") (params req "userId") "member" "active"]))
       (map (fun x => if i_id x =? params req' "id"
                      then set_invitation_status "accepted" x else x)
            (invitations db1))),
    (with_memberships db1
       (memberships db1
        ++ [new_membership g (params req "id") (params req "userId") "member" "active"])).
  split; [exact Hremove|]. split; [exact Hgone|]. split; [|split].
  - unfold respondToInvitation, networkMembership_create, networkInvitation_update.
    rewrite Haction. unfold_handler. reduce_run. rewrite String.eqb_refl. reduce_run.
    rewrite Hfound. rewrite Hiuser, eqb_refl_false, Hinet. reduce_run.
    unfold insert_check. rewrite Hfresh1, Hgone, Hn1, Hu1.
    cbn [find snd negb with_memberships invitations cur]. rewrite Hfound.
    reflexivity.
  - reflexivity.
  - cbn [with_invitations invitations with_memberships]. apply in_map_iff. exists inv.
    apply find_some in Hfound. destruct Hfound as [Hin Hid]. rewrite Hid.
    split; [reflexivity|exact Hin].
Qed.

(** In the sample C has joined n1 through invitation i1; A removes C, and
    C accepts i1 once more. *)
Lemma removed_member_can_rejoin_witness :
  exists db1 db2 mid,
    run (removeMember "A" (Sample.request "A" [("id", "n1"); ("userId", "C")] (VObj [])))
        Sample.db4
    = (Ok (json 200 ok_true), {| cur := db1; past := [Sample.db4] |})
    /\ existsb (same_member "n1" "C") (memberships db1) = false
    /\ run (respondToInvitation (Sample.at_ "m8") "C"
              (Sample.request "C" [("id", "i1")] (Sample.action "accept"))) db1
       = (Ok (json 200 ok_true), {| cur := db2; past := [mid; db1] |})
    /\ memberships db2
       = memberships db1 ++ [new_membership (Sample.at_ "m8") "n1" "C" "member" "active"]
    /\ In (set_invitation_status "accepted"
             (set_invitation_status "accepted"
                (new_invitation (Sample.at_ "i1") "n1" "C" "A" None)))
          (invitations db2).
Proof.
  apply (removed_member_can_rejoin (Sample.at_ "m8") "A"
           (Sample.request "A" [("id", "n1"); ("userId", "C")] (VObj []))
           (Sample.request "C" [("id", "i1")] (Sample.action "accept"))
           Sample.db4
           (new_network (Sample.at_ "n1")
              {| d_name := "Tech Reviewers"; d_description := None;
                 d_themes := ["tech"]; d_logoUrl := None |} "A")
           (new_membership (Sample.at_ "m3") "n1" "C" "member" "active")
           (set_invitation_status "accepted"
              (new_invitation (Sample.at_ "i1") "n1" "C" "A" None)));
    first [reflexivity|discriminate].
Defined.
